(** * Ledger reconciliation of app.rayanxweb.topup

    A shallow embedding of the request handlers of the three servers kept in
    the repository, and the properties of the ledger they maintain.

    - [InMemory]: the server of src/unnamed/part_001 (lines 1-204), whose
      ledger lives in the process: [balances], [pendingOrders],
      [processedOrders], [withdrawHistory], with the limits [MIN_TOPUP],
      [MAX_WITHDRAW] and [DAILY_WITHDRAW_LIMIT].
    - [Firestore]: the handlers that keep their data in Firestore. The
      server of src/server.js (lines 1-213) has /api/topup and
      /api/midtrans/webhook and keeps no balance; the server of
      src/unnamed/part_000 has /api/payment, /api/midtrans-callback and
      /api/withdraw and keeps the balance in the user's document. Both work
      on the same collection "transactions". (The text of the two is
      repeated at the end of src/server.js and of src/unnamed/part_001.)

    Conventions of the model.
    - A JavaScript number is an integer [Z] or [NaN]: amounts are whole
      currency units, on which the arithmetic of the source is exact as long
      as the numbers stay within the safe integers. [parseInt] of a number
      is the number itself below 10^21 and the first digit of its
      exponent form from there on ([JS.parseInt]). [NaN] is kept because
      the source can produce it ([undefined - amount]).
    - A field of a request body is present or absent ([option]); the fields
      of a gateway notification are the strings the gateway sends.
    - An object used as a dictionary is a [gmap] on its own keys and a [Set]
      a [gset]. A plain object also answers for the names it inherits from
      [Object.prototype] ([JS.inherited]): the webhook and the balance
      query of the in-memory server are modelled on these names too; a
      settlement for, or a withdrawal by, a user so named is not, and the
      theorems that depend on one ask for a [JS.ordinary] name.
    - A Firestore collection is a [gmap] from document id to document, an id
      being one path segment. Of the Firestore client the model keeps that
      [doc] throws on an empty id, that [update] rejects on a missing
      document, that a write of an [undefined] field throws and that
      [runTransaction] commits all its writes or none; the store itself is
      taken to be available.
    - The digest (crypto's sha512 in hex), the identifier generator (uuid),
      the clock and the payment gateway client are inputs of the handlers.
    - A handler returns the new state and the response it sends; the
      handlers that create an order also return the calls they made to the
      gateway client. *)

From stdpp Require Import gmap strings list fin_maps.
From Stdlib Require Import ZArith Lia Ascii.

Local Open Scope Z_scope.

(** ** JavaScript values used by the handlers *)

Module JS.

Inductive num : Type :=
| Num (z : Z)
| NaN.

(** [x || 0] where [x] is a number or [undefined]: [0], [NaN] and
    [undefined] are falsy. *)
Definition or_zero (x : option num) : Z :=
  match x with
  | Some (Num z) => z
  | Some NaN => 0
  | None => 0
  end.

(** [x - a] where [x] is a number or [undefined] and [a] a number:
    [undefined - a] and [NaN - a] are [NaN]. *)
Definition minus (x : option num) (a : Z) : num :=
  match x with
  | Some (Num z) => Num (z - a)
  | Some NaN => NaN
  | None => NaN
  end.

(** [parseInt(v) || d] where [parseInt(v)] is an integer or [NaN] ([None]). *)
Definition parseInt_or (v : option Z) (d : Z) : Z :=
  match v with
  | Some z => if bool_decide (z = 0) then d else z
  | None => d
  end.

(** [!s] for a string field that may be absent. *)
Definition falsy_str (s : option string) : bool :=
  match s with
  | Some v => bool_decide (v = "")
  | None => true
  end.

(** [!n] for an integer field that may be absent. *)
Definition falsy_int (n : option Z) : bool :=
  match n with
  | Some v => bool_decide (v = 0)
  | None => true
  end.

(** The first decimal digit of a positive integer. *)
Fixpoint first_digit_fuel (fuel : nat) (a : Z) : Z :=
  match fuel with
  | O => a
  | S fuel' => if bool_decide (a < 10) then a else first_digit_fuel fuel' (a / 10)
  end.

Definition first_digit (a : Z) : Z := first_digit_fuel (Z.to_nat (Z.log2 a)) a.

(** [parseInt(a)] for an integer number [a]: [parseInt] reads the decimal
    text of [a], which is written out in full below 10^21 and in exponent
    form ("1e+21") from there on, where only its first digit is read. *)
Definition parseInt (a : Z) : Z :=
  if bool_decide (Z.abs a < 1000000000000000000000) then a
  else Z.sgn a * first_digit (Z.abs a).

(** The names of the properties every object inherits from
    [Object.prototype] (Node 18): for such a name [k] that is not an own
    key of a dictionary [d], [d[k]] is not [undefined] but a function or,
    for "__proto__", the prototype itself. *)
Definition inherited : list string :=
  ["constructor"; "__defineGetter__"; "__defineSetter__"; "hasOwnProperty";
   "__lookupGetter__"; "__lookupSetter__"; "isPrototypeOf"; "propertyIsEnumerable";
   "toString"; "valueOf"; "__proto__"; "toLocaleString"].

(** A key on which a dictionary is the map of its own keys. *)
Definition ordinary (k : string) : Prop := k ∉ inherited.

(** An integer on which the arithmetic of numbers is exact
    ([Number.isSafeInteger]). *)
Definition safe (z : Z) : Prop := -9007199254740991 <= z <= 9007199254740991.

End JS.

(** ** Responses

    [Message m] is [res.json({message: m})], [Text t] is [res.send(t)] and
    [ErrorReply] is [res.json({error: err.message})], whose text is the
    thrown error's. [BalanceOmitted u] is the JSON text of
    [{userId: u, balance: f}] for a function [f], which leaves the field
    out, and [BalanceObject u] that of [{userId: u, balance: {}}]. *)

Inductive payload : Type :=
| Message (message : string)
| Text (text : string)
| ErrorReply
| TopupReply (order_id token redirect_url : string)
| TokenReply (token redirect_url : string)
| WithdrawReply (message : string) (remaining_balance : JS.num)
| BalanceReply (userId : string) (balance : Z)
| BalanceOmitted (userId : string)
| BalanceObject (userId : string).

Record response : Type := reply { status : Z; body : payload }.

(** ** The payment gateway client (midtrans-client's Snap) *)

Record SnapParam : Type := { sp_order_id : string; sp_gross_amount : Z }.
Record SnapTransaction : Type := { token : string; redirect_url : string }.

(** [snap.createTransaction(parameter)]: the gateway answers with a
    transaction, or the call rejects ([None]). *)
Definition Snap : Type := SnapParam -> option SnapTransaction.

(** A gateway notification, as the webhooks destructure it. *)
Record Notification : Type := {
  order_id : string;
  status_code : string;
  gross_amount : string;
  signature_key : string;
  transaction_status : string
}.

Section Signature.
Variable sha512_hex : string -> string.
Variable MIDTRANS_SERVER_KEY : string.

(** [crypto.createHash("sha512").update(order_id + status_code +
    gross_amount + serverKey).digest("hex")] *)
Definition expectedSignature (n : Notification) : string :=
  sha512_hex (order_id n +:+ status_code n +:+ gross_amount n +:+ MIDTRANS_SERVER_KEY).
End Signature.

(** ** The in-memory server (src/unnamed/part_001, lines 1-204) *)

Module InMemory.

Record Env : Type := {
  env_MIN_TOPUP : option Z;
  env_MAX_WITHDRAW : option Z;
  env_DAILY_WITHDRAW_LIMIT : option Z;
  env_MIDTRANS_SERVER_KEY : string
}.

Definition MIN_TOPUP (env : Env) : Z := JS.parseInt_or (env_MIN_TOPUP env) 10000.
Definition MAX_WITHDRAW (env : Env) : Z := JS.parseInt_or (env_MAX_WITHDRAW env) 10000000.
Definition DAILY_WITHDRAW_LIMIT (env : Env) : Z :=
  JS.parseInt_or (env_DAILY_WITHDRAW_LIMIT env) 20000000.

Record Order : Type := { userId : string; amount : Z }.

Record State : Type := {
  balances : gmap string JS.num;
  pendingOrders : gmap string Order;
  processedOrders : gset string;
  withdrawHistory : gmap string (gmap string Z)
}.

Definition init : State :=
  {| balances := ∅; pendingOrders := ∅; processedOrders := ∅; withdrawHistory := ∅ |}.

Record TopupBody : Type := { tb_userId : option string; tb_amount : option Z }.
Record WithdrawBody : Type := { wb_userId : option string; wb_amount : option Z }.

Section Handlers.
Variable sha512_hex : string -> string.
Variable env : Env.

(** POST /api/topup. [uuid] is the value [uuidv4()] returns; the third
    component lists the calls made to the gateway client. *)
Definition topup (snap : Snap) (uuid : string) (s : State) (b : TopupBody)
  : State * response * list SnapParam :=
  match tb_userId b, tb_amount b with
  | Some u, Some a =>
      if JS.falsy_str (Some u) || JS.falsy_int (Some a) || bool_decide (a < MIN_TOPUP env)
      then (s, reply 400 (Message "Invalid request"), [])
      else
        let orderId := "TOPUP-" +:+ uuid in
        let parameter := {| sp_order_id := orderId; sp_gross_amount := a |} in
        match snap parameter with
        | Some transaction =>
            ({| balances := balances s;
                pendingOrders := <[orderId := {| userId := u; amount := a |}]> (pendingOrders s);
                processedOrders := processedOrders s;
                withdrawHistory := withdrawHistory s |},
             reply 200 (TopupReply orderId (token transaction) (redirect_url transaction)),
             [parameter])
        | None => (s, reply 500 (Message "Transaction error"), [parameter])
        end
  | _, _ => (s, reply 400 (Message "Invalid request"), [])
  end.

(** The credit of a pending order: lines 118-123, for a user with an
    ordinary name ([balances[userId]] is then an own entry or
    [undefined]). *)
Definition settle (s : State) (oid : string) (o : Order) : State :=
  {| balances :=
       <[userId o := JS.Num (JS.or_zero (balances s !! userId o) + JS.parseInt (amount o))]>
         (balances s);
     pendingOrders := delete oid (pendingOrders s);
     processedOrders := {[oid]} ∪ processedOrders s;
     withdrawHistory := withdrawHistory s |}.

(** Lines 118-123 when [pendingOrders[order_id]] is not an own entry but a
    property inherited from [Object.prototype], which line 116 takes for an
    order: its [userId] and [amount] are [undefined], so that
    [balances["undefined"]] becomes [(... || 0) + parseInt(undefined)], that
    is [NaN]; the id is marked as processed and [delete] finds nothing. *)
Definition settle_inherited (s : State) (oid : string) : State :=
  {| balances := <["undefined" := JS.NaN]> (balances s);
     pendingOrders := pendingOrders s;
     processedOrders := {[oid]} ∪ processedOrders s;
     withdrawHistory := withdrawHistory s |}.

(** POST /api/midtrans/webhook *)
Definition webhook (s : State) (n : Notification) : State * response :=
  if bool_decide (signature_key n ≠ expectedSignature sha512_hex (env_MIDTRANS_SERVER_KEY env) n)
  then (s, reply 403 (Message "Invalid signature"))
  else if bool_decide (order_id n ∈ processedOrders s)
  then (s, reply 200 (Message "Already processed"))
  else
    let s' :=
      if bool_decide (transaction_status n = "settlement")
         || bool_decide (transaction_status n = "capture")
      then match pendingOrders s !! order_id n with
           | Some o => settle s (order_id n) o
           | None =>
               if bool_decide (order_id n ∈ JS.inherited)
               then settle_inherited s (order_id n)
               else s
           end
      else s in
    (s', reply 200 (Message "Webhook processed")).

(** [balances[userId] || 0] on the own entries of [balances]. *)
Definition balance_of (s : State) (u : string) : Z := JS.or_zero (balances s !! u).

(** GET /api/balance/:userId. For an inherited name without an own entry
    [balances[userId]] is truthy and is sent as it is: the prototype for
    "__proto__", a function for the other names. *)
Definition balance (s : State) (u : string) : State * response :=
  (s, reply 200
        (if bool_decide (u = "__proto__") then BalanceObject u
         else match balances s !! u with
              | Some _ => BalanceReply u (balance_of s u)
              | None =>
                  if bool_decide (u ∈ JS.inherited) then BalanceOmitted u
                  else BalanceReply u 0
              end)).

(** [withdrawHistory[userId][today] || 0] *)
Definition todayTotal (s : State) (u today : string) : Z :=
  match withdrawHistory s !! u with
  | Some h => default 0 (h !! today)
  | None => 0
  end.

(** Lines 168-170: the user's history object is created when missing. *)
Definition ensure_history (s : State) (u : string) : State :=
  match withdrawHistory s !! u with
  | Some _ => s
  | None =>
      {| balances := balances s;
         pendingOrders := pendingOrders s;
         processedOrders := processedOrders s;
         withdrawHistory := <[u := ∅]> (withdrawHistory s) |}
  end.

(** POST /api/withdraw, for a user and a day with ordinary names. [today]
    is [new Date().toISOString().split("T")[0]]. *)
Definition withdraw (today : string) (s : State) (b : WithdrawBody) : State * response :=
  match wb_userId b, wb_amount b with
  | Some u, Some a =>
      if JS.falsy_str (Some u) || JS.falsy_int (Some a)
      then (s, reply 400 (Message "Invalid request"))
      else if bool_decide (a > MAX_WITHDRAW env)
      then (s, reply 400 (Message "Exceeds max withdraw"))
      else if bool_decide (JS.or_zero (balances s !! u) < a)
      then (s, reply 400 (Message "Insufficient balance"))
      else
        let s1 := ensure_history s u in
        let total := todayTotal s1 u today in
        if bool_decide (total + a > DAILY_WITHDRAW_LIMIT env)
        then (s1, reply 400 (Message "Daily limit exceeded"))
        else
          let remaining := JS.minus (balances s1 !! u) a in
          ({| balances := <[u := remaining]> (balances s1);
              pendingOrders := pendingOrders s1;
              processedOrders := processedOrders s1;
              withdrawHistory :=
                <[u := <[today := total + a]> (default ∅ (withdrawHistory s1 !! u))]>
                  (withdrawHistory s1) |},
           reply 200 (WithdrawReply "Withdraw success (simulation)" remaining))
  | _, _ => (s, reply 400 (Message "Invalid request"))
  end.

(** *** Sequences of requests *)

Inductive request : Type :=
| Topup (snap : Snap) (uuid : string) (b : TopupBody)
| Webhook (n : Notification)
| Balance (u : string)
| Withdraw (today : string) (b : WithdrawBody).

Definition handle (s : State) (r : request) : State * response :=
  match r with
  | Topup snap uuid b => (topup snap uuid s b).1
  | Webhook n => webhook s n
  | Balance u => balance s u
  | Withdraw today b => withdraw today s b
  end.

(** The requests are served one after the other. *)
Fixpoint serve (s : State) (rs : list request) : State * list response :=
  match rs with
  | [] => (s, [])
  | r :: rs' =>
      let '(s1, res) := handle s r in
      let '(s2, ress) := serve s1 rs' in
      (s2, res :: ress)
  end.

(** The same notification delivered [k] times in a row. *)
Definition deliver (n : Notification) (k : nat) (s : State) : State * list response :=
  serve s (replicate k (Webhook n)).

(** A request that names only ordinary keys: the user of a top-up or of a
    withdrawal, the day of a withdrawal, the order of a notification. (The
    id of a new order starts with "TOPUP-" and is always ordinary.) *)
Definition ordinary_request (r : request) : Prop :=
  match r with
  | Topup _ _ b => ∀ u, tb_userId b = Some u -> JS.ordinary u
  | Webhook n => JS.ordinary (order_id n)
  | Balance _ => True
  | Withdraw today b => JS.ordinary today ∧ ∀ u, wb_userId b = Some u -> JS.ordinary u
  end.

(** The credit of the order [o] on [s] is modelled exactly: the user has
    an ordinary name, and the balance before and after is a safe
    integer. *)
Definition exact_credit (s : State) (o : Order) : Prop :=
  JS.ordinary (userId o)
  ∧ JS.safe (balance_of s (userId o))
  ∧ JS.safe (balance_of s (userId o) + JS.parseInt (amount o)).




(** The outcomes of a withdrawal, in the order of the checks of the source. *)
Inductive withdraw_outcome (today : string) (s : State) (b : WithdrawBody)
  : State -> response -> Prop :=
| wd_invalid :
    JS.falsy_str (wb_userId b) || JS.falsy_int (wb_amount b) = true ->
    withdraw_outcome today s b s (reply 400 (Message "Invalid request"))
| wd_exceeds_max u a :
    wb_userId b = Some u -> wb_amount b = Some a -> u ≠ "" -> a ≠ 0 ->
    a > MAX_WITHDRAW env ->
    withdraw_outcome today s b s (reply 400 (Message "Exceeds max withdraw"))
| wd_insufficient u a :
    wb_userId b = Some u -> wb_amount b = Some a -> u ≠ "" -> a ≠ 0 ->
    a <= MAX_WITHDRAW env -> balance_of s u < a ->
    withdraw_outcome today s b s (reply 400 (Message "Insufficient balance"))
| wd_daily_limit u a :
    wb_userId b = Some u -> wb_amount b = Some a -> u ≠ "" -> a ≠ 0 ->
    a <= MAX_WITHDRAW env -> a <= balance_of s u ->
    todayTotal s u today + a > DAILY_WITHDRAW_LIMIT env ->
    withdraw_outcome today s b (ensure_history s u)
      (reply 400 (Message "Daily limit exceeded"))
| wd_success u a :
    wb_userId b = Some u -> wb_amount b = Some a -> u ≠ "" -> a ≠ 0 ->
    a <= MAX_WITHDRAW env -> a <= balance_of s u ->
    todayTotal s u today + a <= DAILY_WITHDRAW_LIMIT env ->
    withdraw_outcome today s b
      {| balances := <[u := JS.minus (balances s !! u) a]> (balances s);
         pendingOrders := pendingOrders s;
         processedOrders := processedOrders s;
         withdrawHistory :=
           <[u := <[today := todayTotal s u today + a]>
                    (default ∅ (withdrawHistory (ensure_history s u) !! u))]>
             (withdrawHistory (ensure_history s u)) |}
      (reply 200 (WithdrawReply "Withdraw success (simulation)"
                    (JS.minus (balances s !! u) a))).

(** *** Ledger invariants *)

(** Every pending order has a positive amount. *)
Definition positive_orders (s : State) : Prop :=
  ∀ oid o, pendingOrders s !! oid = Some o -> 0 < amount o.

(** No balance, as GET /api/balance reports it, is negative. *)
Definition no_negative_balance (s : State) : Prop :=
  ∀ u, 0 <= balance_of s u.

Definition ledger_ok (s : State) : Prop := positive_orders s ∧ no_negative_balance s.


(** The balance a response shows, if it shows a number, is not negative. *)
Definition shows_no_negative (res : response) : Prop :=
  match body res with
  | BalanceReply _ z => 0 <= z
  | WithdrawReply _ (JS.Num z) => 0 <= z
  | _ => True
  end.

(** A webhook call applies, for the order [oid] of the notification, both
    the credit (of [parseInt(amount)], line 120) and the marker, or
    neither. *)
Definition both_or_neither (s s' : State) (oid : string) : Prop :=
  ((oid ∉ processedOrders s) ∧ (oid ∈ processedOrders s')
   ∧ ∃ o, pendingOrders s !! oid = Some o
       ∧ balance_of s' (userId o) = balance_of s (userId o) + JS.parseInt (amount o)
       ∧ ∀ u, u ≠ userId o -> balances s' !! u = balances s !! u)
  ∨ (processedOrders s' = processedOrders s ∧ balances s' = balances s).

End Handlers.

End InMemory.

(** ** The Firestore handlers (src/server.js, src/unnamed/part_000) *)

Module Firestore.

(** A document of the collection "transactions". The handlers read [uid],
    [amount] and [status]; the time stamps and the "type" tag, which no
    handler reads, are left out. *)
Record Transaction : Type := { uid : string; amount : Z; status : string }.

(** A document of the collection "users": its [balance] field, which may be
    missing. *)
Record User : Type := { balance : option Z }.

(** A document of the collection "withdraw_requests". *)
Record WithdrawRequest : Type := {
  wr_uid : string;
  wr_amount : Z;
  wr_account_number : option string;
  wr_status : string
}.

Record Db : Type := {
  transactions : gmap string Transaction;
  users : gmap string User;
  withdraw_requests : list WithdrawRequest
}.

Definition set_status (t : Transaction) (st : string) : Transaction :=
  {| uid := uid t; amount := amount t; status := st |}.

(** [db.collection("transactions").doc(id).update({status: st})]: [doc]
    throws on an empty id and [update] rejects when the document does not
    exist ([None]). *)
Definition update_status (db : Db) (id st : string) : option Db :=
  if bool_decide (id = "") then None
  else match transactions db !! id with
       | Some t =>
           Some {| transactions := <[id := set_status t st]> (transactions db);
                   users := users db;
                   withdraw_requests := withdraw_requests db |}
       | None => None
       end.



Record TopupBody : Type := { tb_uid : option string; tb_amount : option Z }.

(** What [verifyToken] finds in the Authorization header. *)
Inductive bearer : Type :=
| NoToken
| InvalidToken
| Verified (uid : string).

Record PaymentBody : Type := { pb_amount : option Z }.
Record WithdrawBody : Type := { wb_amount : option Z; wb_account_number : option string }.

Section Handlers.
Variable sha512_hex : string -> string.
Variable MIDTRANS_SERVER_KEY : string.

(** POST /api/topup (src/server.js, lines 79-116) *)
Definition topup (snap : Snap) (uuid : string) (db : Db) (b : TopupBody)
  : Db * response * list SnapParam :=
  match tb_uid b, tb_amount b with
  | Some u, Some a =>
      if JS.falsy_str (Some u) || JS.falsy_int (Some a) || bool_decide (a < 10000)
      then (db, reply 400 (Message "Invalid request"), [])
      else
        let orderId := "TOPUP-" +:+ uuid in
        let parameter := {| sp_order_id := orderId; sp_gross_amount := a |} in
        match snap parameter with
        | Some transaction =>
            ({| transactions :=
                  <[orderId := {| uid := u; amount := a; status := "pending" |}]>
                    (transactions db);
                users := users db;
                withdraw_requests := withdraw_requests db |},
             reply 200 (TokenReply (token transaction) (redirect_url transaction)),
             [parameter])
        | None => (db, reply 500 (Message "Internal server error"), [parameter])
        end
  | _, _ => (db, reply 400 (Message "Invalid request"), [])
  end.

(** POST /api/midtrans/webhook (src/server.js, lines 119-159) *)
Definition webhook (db : Db) (n : Notification) : Db * response :=
  if bool_decide (expectedSignature sha512_hex MIDTRANS_SERVER_KEY n ≠ signature_key n)
  then (db, reply 403 (Message "Invalid signature"))
  else
    let after_settlement :=
      if bool_decide (transaction_status n = "settlement")
         || bool_decide (transaction_status n = "capture")
      then update_status db (order_id n) "success"
      else Some db in
    match after_settlement with
    | None => (db, reply 500 (Message "Webhook error"))
    | Some db1 =>
        let after_expire :=
          if bool_decide (transaction_status n = "expire")
          then update_status db1 (order_id n) "expired"
          else Some db1 in
        match after_expire with
        | None => (db1, reply 500 (Message "Webhook error"))
        | Some db2 => (db2, reply 200 (Message "Webhook processed"))
        end
    end.

(** [verifyToken] (lines 61-72): the request carries no bearer token, a
    token that [verifyIdToken] rejects, or a token verified for a uid. *)
Definition verifyToken (auth : bearer) (db : Db)
    (next : string -> Db * response) : Db * response :=
  match auth with
  | NoToken => (db, reply 401 (Message "Unauthorized"))
  | InvalidToken => (db, reply 401 (Message "Invalid Token"))
  | Verified u => next u
  end.

(** POST /api/payment (src/unnamed/part_000, lines 75-106) *)
Definition payment (snap : Snap) (uuid : string) (auth : bearer)
    (db : Db) (b : PaymentBody) : Db * response * list SnapParam :=
  match auth with
  | NoToken => (db, reply 401 (Message "Unauthorized"), [])
  | InvalidToken => (db, reply 401 (Message "Invalid Token"), [])
  | Verified u =>
      match pb_amount b with
      | Some a =>
          if JS.falsy_int (Some a) || bool_decide (a < 10000)
          then (db, reply 400 (Message "Minimal topup 10.000"), [])
          else
            let orderId := "TOP-" +:+ uuid in
            let parameter := {| sp_order_id := orderId; sp_gross_amount := a |} in
            match snap parameter with
            | Some trx =>
                ({| transactions :=
                      <[orderId := {| uid := u; amount := a; status := "pending" |}]>
                        (transactions db);
                    users := users db;
                    withdraw_requests := withdraw_requests db |},
                 reply 200 (TokenReply (token trx) (redirect_url trx)),
                 [parameter])
            | None => (db, reply 500 ErrorReply, [parameter])
            end
      | None => (db, reply 400 (Message "Minimal topup 10.000"), [])
      end
  end.

(** The body of [db.runTransaction] in the callback (lines 134-143): both
    updates are committed together, or the transaction rejects ([None])
    when the user document cannot be read. *)
Definition credit_transaction (db : Db) (id : string) (trx : Transaction) : option Db :=
  if bool_decide (uid trx = "") then None
  else match users db !! uid trx with
       | Some userDoc =>
           let balance0 := default 0 (balance userDoc) in
           Some {| transactions := <[id := set_status trx "success"]> (transactions db);
                   users := <[uid trx := {| balance := Some (balance0 + amount trx) |}]> (users db);
                   withdraw_requests := withdraw_requests db |}
       | None => None
       end.

(** POST /api/midtrans-callback (src/unnamed/part_000, lines 109-154) *)
Definition midtrans_callback (db : Db) (n : Notification) : Db * response :=
  if bool_decide (expectedSignature sha512_hex MIDTRANS_SERVER_KEY n ≠ signature_key n)
  then (db, reply 403 (Text "Invalid Signature"))
  else if bool_decide (order_id n = "")
  then (db, reply 500 (Text "Error"))
  else
    match transactions db !! order_id n with
    | None => (db, reply 200 (Text "OK"))
    | Some trx =>
        if bool_decide (status trx = "success")
        then (db, reply 200 (Text "OK"))
        else if bool_decide (transaction_status n = "settlement")
        then match credit_transaction db (order_id n) trx with
             | Some db' => (db', reply 200 (Text "OK"))
             | None => (db, reply 500 (Text "Error"))
             end
        else (db, reply 200 (Text "OK"))
    end.

(** POST /api/withdraw (src/unnamed/part_000, lines 157-192). Without an
    [account_number] the [t.set] of line 175 throws on the [undefined]
    field and the transaction commits nothing. *)
Definition withdraw (auth : bearer) (db : Db) (b : WithdrawBody)
  : Db * response :=
  verifyToken auth db (fun u =>
    match wb_amount b with
    | Some a =>
        if JS.falsy_int (Some a) || bool_decide (a <= 0)
        then (db, reply 400 (Message "Invalid amount"))
        else if bool_decide (u = "")
        then (db, reply 500 ErrorReply)
        else match users db !! u with
             | None => (db, reply 500 ErrorReply)
             | Some userDoc =>
                 let balance0 := default 0 (balance userDoc) in
                 if bool_decide (balance0 < a)
                 then (db, reply 400 (Message "Saldo tidak cukup"))
                 else if bool_decide (wb_account_number b = None)
                 then (db, reply 500 ErrorReply)
                 else
                   ({| transactions := transactions db;
                       users := <[u := {| balance := Some (balance0 - a) |}]> (users db);
                       withdraw_requests :=
                         withdraw_requests db ++
                         [{| wr_uid := u; wr_amount := a;
                             wr_account_number := wb_account_number b;
                             wr_status := "pending" |}] |},
                    reply 200 (Message "Withdraw menunggu approval"))
             end
    | None => (db, reply 400 (Message "Invalid amount"))
    end).

(** *** Properties of a notification handler *)

(** The order [id] is marked as paid. *)
Definition settled (db : Db) (id : string) : Prop :=
  ∃ t, transactions db !! id = Some t ∧ status t = "success".

(** From [db] to [db'] the order [id] became settled and its amount was
    added to the balance of its user, or neither the transactions nor the
    users changed. *)
Definition both_or_neither (db db' : Db) (id : string) : Prop :=
  (∃ t ud, transactions db !! id = Some t ∧ status t ≠ "success"
     ∧ users db !! uid t = Some ud
     ∧ transactions db' = <[id := set_status t "success"]> (transactions db)
     ∧ users db'
       = <[uid t := {| balance := Some (default 0 (balance ud) + amount t) |}]> (users db))
  ∨ (transactions db' = transactions db ∧ users db' = users db).



End Handlers.

End Firestore.

(** ** Sample data for the examples *)

(** A stand-in for the digest in the examples; the theorems hold for every
    digest function. *)
Definition sample_digest (s : string) : string := "sha512:" +:+ s.

(** No limit is set in the environment: the defaults apply. *)
Definition sample_env : InMemory.Env :=
  {| InMemory.env_MIN_TOPUP := None;
     InMemory.env_MAX_WITHDRAW := None;
     InMemory.env_DAILY_WITHDRAW_LIMIT := None;
     InMemory.env_MIDTRANS_SERVER_KEY := "server-key" |}.

(** A notification for [oid] with the transaction status [ts], signed with
    [digest] under [key]. *)
Definition signed (digest : string -> string) (key oid ts : string) : Notification :=
  {| order_id := oid; status_code := "200"; gross_amount := "50000.00";
     signature_key := digest (oid +:+ "200" +:+ "50000.00" +:+ key);
     transaction_status := ts |}.

(** The same notification with another gross amount and the old signature. *)
Definition with_gross_amount (n : Notification) (g : string) : Notification :=
  {| order_id := order_id n; status_code := status_code n; gross_amount := g;
     signature_key := signature_key n; transaction_status := transaction_status n |}.

Definition sample_order : InMemory.Order :=
  {| InMemory.userId := "alice"; InMemory.amount := 50000 |}.

(** One pending order of 50000 for alice, nothing else. *)
Definition sample_pending : InMemory.State :=
  {| InMemory.balances := ∅;
     InMemory.pendingOrders := {["TOPUP-1" := sample_order]};
     InMemory.processedOrders := ∅;
     InMemory.withdrawHistory := ∅ |}.

Definition sample_settlement : Notification :=
  signed sample_digest "server-key" "TOPUP-1" "settlement".

Definition sample_expire : Notification :=
  signed sample_digest "server-key" "TOPUP-1" "expire".

(** The Firestore counterpart of [sample_pending]: one pending order of
    50000 for alice, whose user document holds the balance 0. *)
Definition sample_db : Firestore.Db :=
  {| Firestore.transactions :=
       {["TOPUP-1" := {| Firestore.uid := "alice"; Firestore.amount := 50000;
                         Firestore.status := "pending" |}]};
     Firestore.users := {["alice" := {| Firestore.balance := Some 0 |}]};
     Firestore.withdraw_requests := [] |}.

(** No order yet; alice's user document holds the balance 0. *)
Definition empty_db : Firestore.Db :=
  {| Firestore.transactions := ∅;
     Firestore.users := {["alice" := {| Firestore.balance := Some 0 |}]};
     Firestore.withdraw_requests := [] |}.


(** A gateway that accepts every order. *)
Definition sample_snap : Snap :=
  fun p => Some {| token := "token-" +:+ sp_order_id p;
                   redirect_url := "https://pay.example/" +:+ sp_order_id p |}.

(** alice tops up 100000, the gateway reports the settlement, and alice then
    asks to withdraw a negative amount. *)
Definition negative_withdrawal_run : list InMemory.request :=
  [ InMemory.Topup sample_snap "1"
      {| InMemory.tb_userId := Some "alice"; InMemory.tb_amount := Some 100000 |};
    InMemory.Webhook sample_settlement;
    InMemory.Withdraw "2024-05-01"
      {| InMemory.wb_userId := Some "alice"; InMemory.wb_amount := Some (-50000) |} ].

(** alice tops up 50000, it is settled, she withdraws 20000 and then asks
    for 40000 more than she has left. *)
Definition sample_run : list InMemory.request :=
  [ InMemory.Topup sample_snap "1"
      {| InMemory.tb_userId := Some "alice"; InMemory.tb_amount := Some 50000 |};
    InMemory.Webhook sample_settlement;
    InMemory.Withdraw "2024-05-01"
      {| InMemory.wb_userId := Some "alice"; InMemory.wb_amount := Some 20000 |};
    InMemory.Balance "alice";
    InMemory.Withdraw "2024-05-01"
      {| InMemory.wb_userId := Some "alice"; InMemory.wb_amount := Some 40000 |} ].

(** ** Accounts of a run of the in-memory server *)

Module Accounting.
Import InMemory.



(** The sum of [f r res] over the requests [rs] served from [s] and their
    responses. *)
Fixpoint total (sha512_hex : string -> string) (env : Env)
    (f : request -> response -> Z) (s : State) (rs : list request) : Z :=
  match rs with
  | [] => 0
  | r :: rs' =>
      let '(s1, res) := handle sha512_hex env s r in
      f r res + total sha512_hex env f s1 rs'
  end.





End Accounting.

(** ** The withdrawal requests of src/server.js (lines 162-189) *)

Module ServerJs.

(** A document of the collection "withdrawals" (the time stamp is left
    out). *)
Record Withdrawal : Type := {
  wd_uid : string;
  wd_amount : Z;
  wd_bankAccount : string;
  wd_status : string
}.

Record WithdrawBody : Type := {
  wb_uid : option string;
  wb_amount : option Z;
  wb_bankAccount : option string
}.

(** [res.status(400).json({message})], or
    [res.json({message, withdrawId})]. *)
Inductive withdraw_reply : Type :=
| Refused (status : Z) (message : string)
| Submitted (message withdrawId : string).

(** POST /api/withdraw: the request is recorded as pending under a new id;
    no balance is read. *)
Definition withdraw (uuid : string) (withdrawals : gmap string Withdrawal)
    (b : WithdrawBody) : gmap string Withdrawal * withdraw_reply :=
  match wb_uid b, wb_amount b, wb_bankAccount b with
  | Some u, Some a, Some acct =>
      if JS.falsy_str (Some u) || JS.falsy_int (Some a) || JS.falsy_str (Some acct)
      then (withdrawals, Refused 400 "Invalid request")
      else
        let withdrawId := "WD-" +:+ uuid in
        (<[withdrawId := {| wd_uid := u; wd_amount := a; wd_bankAccount := acct;
                            wd_status := "pending" |}]> withdrawals,
         Submitted "Withdraw request submitted" withdrawId)
  | _, _, _ => (withdrawals, Refused 400 "Invalid request")
  end.

End ServerJs.

(** ** The checks of the environment at start-up *)

Module Startup.

(** The first of [keys] that [process.env] lacks or holds empty, in the
    order of [forEach]. *)
Fixpoint first_missing (keys : list string) (env : gmap string string) : option string :=
  match keys with
  | [] => None
  | key :: rest =>
      if JS.falsy_str (env !! key) then Some key else first_missing rest env
  end.

(** src/server.js, lines 31-43. *)
Definition requiredEnv_server : list string :=
  ["MIDTRANS_SERVER_KEY"; "MIDTRANS_CLIENT_KEY"; "FB_PROJECT_ID"; "FB_CLIENT_EMAIL";
   "FB_PRIVATE_KEY"].

(** src/unnamed/part_000, lines 31-42. *)
Definition requiredEnv_callback : list string :=
  ["MIDTRANS_SERVER_KEY"; "FB_PROJECT_ID"; "FB_CLIENT_EMAIL"; "FB_PRIVATE_KEY"].

(** The text of the error thrown at start-up, if any. *)
Definition check_server (env : gmap string string) : option string :=
  (fun key => "Missing required env variable: " +:+ key)
    <$> first_missing requiredEnv_server env.

Definition check_callback (env : gmap string string) : option string :=
  (fun key => "Missing ENV: " +:+ key) <$> first_missing requiredEnv_callback env.

(** src/unnamed/part_001, lines 20-23: [true] when the process goes on,
    [false] when it exits with code 1. *)
Definition check_in_memory (env : gmap string string) : bool :=
  negb (JS.falsy_str (env !! "MIDTRANS_SERVER_KEY")
        || JS.falsy_str (env !! "MIDTRANS_CLIENT_KEY")).

End Startup.


(** What the user document of [u] holds, 0 when there is none. *)
Definition fs_balance (db : Firestore.Db) (u : string) : Z :=
  match Firestore.users db !! u with
  | Some ud => default 0 (Firestore.balance ud)
  | None => 0
  end.

(** A capture for the sample order that states another amount and status
    code, correctly signed. *)
Definition sample_capture : Notification :=
  {| order_id := "TOPUP-1"; status_code := "201"; gross_amount := "1.00";
     signature_key := sample_digest ("TOPUP-1" +:+ "201" +:+ "1.00" +:+ "server-key");
     transaction_status := "capture" |}.

(** The sample order is settled already. *)
Definition sample_settled : InMemory.State :=
  {| InMemory.balances := {["alice" := JS.Num 50000]};
     InMemory.pendingOrders := ∅;
     InMemory.processedOrders := {["TOPUP-1"]};
     InMemory.withdrawHistory := ∅ |}.

(** A gateway that rejects every order. *)
Definition failing_snap : Snap := fun _ => None.

(** The orders a notification handler keeps: every stored order is still
    stored, for the same user and the same amount, no order is added, and
    the withdrawal requests are untouched. *)
Definition keeps_orders (db db' : Firestore.Db) : Prop :=
  (∀ id t, Firestore.transactions db !! id = Some t ->
     ∃ t', Firestore.transactions db' !! id = Some t'
           ∧ Firestore.uid t' = Firestore.uid t
           ∧ Firestore.amount t' = Firestore.amount t)
  ∧ (∀ id, Firestore.transactions db !! id = None ->
           Firestore.transactions db' !! id = None)
  ∧ Firestore.withdraw_requests db' = Firestore.withdraw_requests db.

(** The sample order on a database without any user document. *)
Definition orphan_db : Firestore.Db :=
  {| Firestore.transactions := Firestore.transactions sample_db;
     Firestore.users := ∅;
     Firestore.withdraw_requests := [] |}.

(** A correctly signed settlement for an order nobody created. *)
Definition stray_settlement : Notification :=
  signed sample_digest "server-key" "TOPUP-9" "settlement".

(** Every variable the servers require is set. *)
Definition sample_process_env : gmap string string :=
  {[ "MIDTRANS_SERVER_KEY" := "server-key"; "MIDTRANS_CLIENT_KEY" := "client-key";
     "FB_PROJECT_ID" := "project"; "FB_CLIENT_EMAIL" := "admin@example.org";
     "FB_PRIVATE_KEY" := "private-key"; "PORT" := "8080" ]}.

(** A request to withdraw a negative amount, with all its fields. *)
Definition sample_withdraw_body : ServerJs.WithdrawBody :=
  {| ServerJs.wb_uid := Some "alice"; ServerJs.wb_amount := Some (-5);
     ServerJs.wb_bankAccount := Some "1234567890" |}.

(** A correctly signed settlement for the order "TOP-1" of /api/payment. *)
Definition payment_settlement : Notification :=
  signed sample_digest "server-key" "TOP-1" "settlement".

(** A database without any document. *)
Definition no_documents : Firestore.Db :=
  {| Firestore.transactions := ∅;
     Firestore.users := ∅;
     Firestore.withdraw_requests := [] |}.

(** The same notification delivered [k] times in a row to the callback of
    src/unnamed/part_000. *)
Fixpoint fs_deliver (digest : string -> string) (key : string) (n : Notification)
    (k : nat) (db : Firestore.Db) : Firestore.Db * list response :=
  match k with
  | O => (db, [])
  | S k' =>
      let '(db1, res) := Firestore.midtrans_callback digest key db n in
      let '(db2, ress) := fs_deliver digest key n k' db1 in
      (db2, res :: ress)
  end.

(** A correctly signed settlement whose order id is the name of a function
    every object inherits. *)
Definition inherited_settlement : Notification :=
  signed sample_digest "server-key" "toString" "settlement".

(** A correctly signed settlement with an empty order id. *)
Definition empty_id_settlement : Notification :=
  signed sample_digest "server-key" "" "settlement".


(** On the empty server bob asks to withdraw a negative amount and then for
    his balance. *)
Definition nan_run : list InMemory.request :=
  [ InMemory.Withdraw "2024-05-01"
      {| InMemory.wb_userId := Some "bob"; InMemory.wb_amount := Some (-5) |};
    InMemory.Balance "bob" ].

(** [JS.ordinary k] for a literal [k], by evaluation. *)
Ltac ordinary_key := apply (bool_decide_unpack _); vm_compute; exact I.

(** * Properties of the JavaScript values *)

Lemma first_digit_fuel_bounds fuel : ∀ a, 1 <= a -> 1 <= JS.first_digit_fuel fuel a <= a.
Proof.
  induction fuel as [|fuel IH]; intros a Ha; cbn [JS.first_digit_fuel]; [lia|].
  case_bool_decide as Hlt; [lia|].
  pose proof (Z.div_mod a 10 ltac:(lia)) as Hdiv.
  pose proof (Z.mod_pos_bound a 10 ltac:(lia)) as Hmod.
  specialize (IH (a / 10) ltac:(lia)). lia.
Qed.


(** On a positive amount [parseInt] is positive and never above it. *)
Lemma parseInt_positive a : 0 < a -> 0 < JS.parseInt a <= a.
Proof.
  intros Ha. unfold JS.parseInt, JS.first_digit. case_bool_decide; [lia|].
  rewrite Z.sgn_pos, Z.abs_eq by lia.
  pose proof (first_digit_fuel_bounds (Z.to_nat (Z.log2 a)) a ltac:(lia)). lia.
Qed.

(** The id of a new order is ordinary. *)
Lemma order_id_ordinary uuid : JS.ordinary ("TOPUP-" +:+ uuid).
Proof.
  unfold JS.ordinary, JS.inherited. rewrite !elem_of_cons, elem_of_nil.
  intros H. repeat (destruct H as [H|H]; [discriminate H|]). done.
Qed.

(** * Properties of the in-memory server *)

Section InMemoryFacts.
Import InMemory.
Variable sha512_hex : string -> string.
Variable env : Env.

Abbreviation webhook := (webhook sha512_hex env).
Abbreviation well_signed n :=
  (signature_key n = expectedSignature sha512_hex (env_MIDTRANS_SERVER_KEY env) n).

Lemma webhook_bad_signature s n :
  ¬ well_signed n -> webhook s n = (s, reply 403 (Message "Invalid signature")).
Proof.
  intros Hsig. unfold InMemory.webhook.
  by rewrite bool_decide_true.
Qed.

(** A notification whose gross amount was altered after it was signed is
    refused, unless the digest of the altered text is the old one. *)
Lemma webhook_altered_gross_amount s n g :
  well_signed n ->
  expectedSignature sha512_hex (env_MIDTRANS_SERVER_KEY env) (with_gross_amount n g)
  ≠ expectedSignature sha512_hex (env_MIDTRANS_SERVER_KEY env) n ->
  webhook s (with_gross_amount n g) = (s, reply 403 (Message "Invalid signature")).
Proof.
  intros Hsig Hne. apply webhook_bad_signature. cbn [signature_key with_gross_amount].
  rewrite Hsig. congruence.
Qed.

Lemma webhook_processed s n :
  well_signed n -> order_id n ∈ processedOrders s ->
  webhook s n = (s, reply 200 (Message "Already processed")).
Proof.
  intros Hsig Hin. unfold InMemory.webhook.
  rewrite bool_decide_false by (intros H; by apply H).
  by rewrite bool_decide_true.
Qed.

Lemma webhook_unknown s n :
  well_signed n -> order_id n ∉ processedOrders s ->
  pendingOrders s !! order_id n = None -> JS.ordinary (order_id n) ->
  webhook s n = (s, reply 200 (Message "Webhook processed")).
Proof.
  intros Hsig Hnin Hnone Hord. unfold InMemory.webhook.
  rewrite bool_decide_false by (intros H; by apply H).
  rewrite bool_decide_false by done.
  rewrite Hnone. rewrite (bool_decide_false (_ ∈ _)) by done. by destruct (_ || _).
Qed.

(** A settlement or capture for an id without a pending order: nothing
    happens, unless the id is an inherited name. *)
Lemma webhook_no_order s n :
  well_signed n -> order_id n ∉ processedOrders s ->
  transaction_status n = "settlement" ∨ transaction_status n = "capture" ->
  pendingOrders s !! order_id n = None ->
  webhook s n
  = (if bool_decide (order_id n ∈ JS.inherited)
     then settle_inherited s (order_id n) else s,
     reply 200 (Message "Webhook processed")).
Proof.
  intros Hsig Hnin Hts Hnone. unfold InMemory.webhook.
  rewrite bool_decide_false by (intros H; by apply H).
  rewrite bool_decide_false by done.
  rewrite Hnone.
  destruct Hts as [-> | ->]; reflexivity.
Qed.

Lemma webhook_settles s n o :
  well_signed n -> order_id n ∉ processedOrders s ->
  transaction_status n = "settlement" ∨ transaction_status n = "capture" ->
  pendingOrders s !! order_id n = Some o ->
  webhook s n = (settle s (order_id n) o, reply 200 (Message "Webhook processed")).
Proof.
  intros Hsig Hnin Hts Hsome. unfold InMemory.webhook.
  rewrite bool_decide_false by (intros H; by apply H).
  rewrite bool_decide_false by done.
  rewrite Hsome.
  destruct Hts as [-> | ->]; reflexivity.
Qed.

Lemma webhook_other_status s n :
  well_signed n -> order_id n ∉ processedOrders s ->
  transaction_status n ≠ "settlement" -> transaction_status n ≠ "capture" ->
  webhook s n = (s, reply 200 (Message "Webhook processed")).
Proof.
  intros Hsig Hnin H1 H2. unfold InMemory.webhook.
  rewrite bool_decide_false by (intros H; by apply H).
  rewrite bool_decide_false by done.
  by rewrite !bool_decide_false by done.
Qed.

Lemma settle_processed s oid o : oid ∈ processedOrders (settle s oid o).
Proof. simpl. apply elem_of_union_l. by apply elem_of_singleton. Qed.

Lemma settle_inherited_processed s oid : oid ∈ processedOrders (settle_inherited s oid).
Proof. simpl. apply elem_of_union_l. by apply elem_of_singleton. Qed.

Lemma settle_balance_of s oid o :
  balance_of (settle s oid o) (userId o)
  = balance_of s (userId o) + JS.parseInt (amount o).
Proof. unfold balance_of. simpl. by rewrite lookup_insert_eq. Qed.

Lemma settle_balance_other s oid o u :
  u ≠ userId o -> balances (settle s oid o) !! u = balances s !! u.
Proof. intros Hne. simpl. by rewrite lookup_insert_ne. Qed.

(** A notification delivered again right after a first delivery finds the
    state as the first delivery left it. *)
Lemma deliver_again s n o k :
  well_signed n ->
  serve sha512_hex env (settle s (order_id n) o) (replicate k (Webhook n))
  = (settle s (order_id n) o, replicate k (reply 200 (Message "Already processed"))).
Proof.
  intros Hsig. induction k as [|k IH]; [done|].
  cbn [replicate serve handle].
  rewrite webhook_processed; [|done|apply settle_processed].
  by rewrite IH.
Qed.

End InMemoryFacts.

(** ** Top-up and withdrawal *)

Section InMemoryLedger.
Import InMemory.
Variable sha512_hex : string -> string.
Variable env : Env.

Lemma topup_below_minimum snap uuid s b a :
  tb_amount b = Some a -> a < MIN_TOPUP env ->
  topup env snap uuid s b = (s, reply 400 (Message "Invalid request"), []).
Proof.
  intros Ha Hlt. unfold topup. rewrite Ha.
  destruct (tb_userId b) as [u|]; [|done].
  rewrite (bool_decide_true (a < MIN_TOPUP env)) by done.
  by rewrite orb_true_r.
Qed.

Lemma topup_accepted snap uuid s u a tx :
  u ≠ "" -> a ≠ 0 -> MIN_TOPUP env <= a ->
  snap {| sp_order_id := "TOPUP-" +:+ uuid; sp_gross_amount := a |} = Some tx ->
  topup env snap uuid s {| tb_userId := Some u; tb_amount := Some a |}
  = ({| balances := balances s;
        pendingOrders :=
          <["TOPUP-" +:+ uuid := {| userId := u; amount := a |}]> (pendingOrders s);
        processedOrders := processedOrders s;
        withdrawHistory := withdrawHistory s |},
     reply 200 (TopupReply ("TOPUP-" +:+ uuid) (token tx) (redirect_url tx)),
     [{| sp_order_id := "TOPUP-" +:+ uuid; sp_gross_amount := a |}]).
Proof.
  intros Hu Ha Hmin Hsnap. unfold topup. cbn [tb_userId tb_amount JS.falsy_str JS.falsy_int].
  rewrite !bool_decide_false by (done || lia). cbn [orb].
  by rewrite Hsnap.
Qed.

(** What a top-up does to the ledger: nothing, or one more pending order
    whose amount is at least [MIN_TOPUP] and not zero. *)
Lemma topup_cases snap uuid s b :
  (topup env snap uuid s b).1.1 = s
  ∨ ∃ u a, MIN_TOPUP env <= a ∧ a ≠ 0
      ∧ (topup env snap uuid s b).1.1
        = {| balances := balances s;
             pendingOrders :=
               <["TOPUP-" +:+ uuid := {| userId := u; amount := a |}]> (pendingOrders s);
             processedOrders := processedOrders s;
             withdrawHistory := withdrawHistory s |}.
Proof.
  unfold topup.
  destruct (tb_userId b) as [u|]; [|by left].
  destruct (tb_amount b) as [a|]; [|by left].
  destruct (JS.falsy_str (Some u)); [by left|].
  cbn [orb JS.falsy_int].
  case_bool_decide as Ha; [by left|].
  case_bool_decide as Hmin; [by left|]. cbn [orb].
  destruct (snap _); [|by left].
  right. exists u, a. split_and!; [lia|done|done].
Qed.

Lemma ensure_history_balances s u : balances (ensure_history s u) = balances s.
Proof. unfold ensure_history. by destruct (withdrawHistory s !! u). Qed.

Lemma ensure_history_pending s u : pendingOrders (ensure_history s u) = pendingOrders s.
Proof. unfold ensure_history. by destruct (withdrawHistory s !! u). Qed.

Lemma ensure_history_processed s u : processedOrders (ensure_history s u) = processedOrders s.
Proof. unfold ensure_history. by destruct (withdrawHistory s !! u). Qed.

Lemma ensure_history_total s u u' day :
  todayTotal (ensure_history s u) u' day = todayTotal s u' day.
Proof.
  unfold ensure_history, todayTotal.
  destruct (withdrawHistory s !! u) eqn:Hu; [done|]. cbn [withdrawHistory].
  destruct (decide (u = u')) as [<-|Hne].
  - by rewrite lookup_insert_eq, Hu, lookup_empty.
  - by rewrite lookup_insert_ne.
Qed.

Lemma withdraw_spec today s b :
  withdraw_outcome env today s b (withdraw env today s b).1 (withdraw env today s b).2.
Proof.
  unfold withdraw.
  destruct (wb_userId b) as [u|] eqn:Hu; cycle 1.
  { cbn. apply wd_invalid. by rewrite Hu. }
  destruct (wb_amount b) as [a|] eqn:Ha; cycle 1.
  { cbn. apply wd_invalid. rewrite Hu, Ha. by rewrite orb_true_r. }
  destruct (JS.falsy_str (Some u) || JS.falsy_int (Some a)) eqn:Hf.
  { cbn [fst snd]. apply wd_invalid. by rewrite Hu, Ha. }
  apply orb_false_iff in Hf as [Hfu Hfa]. cbn in Hfu, Hfa.
  apply bool_decide_eq_false in Hfu, Hfa.
  case_bool_decide as Hmax.
  { cbn [fst snd]. by eapply wd_exceeds_max. }
  case_bool_decide as Hbal.
  { cbn [fst snd]. eapply wd_insufficient; eauto; lia. }
  rewrite ensure_history_total.
  case_bool_decide as Hday; cbn [fst snd].
  { eapply wd_daily_limit; eauto; unfold balance_of; lia. }
  rewrite ensure_history_balances, ensure_history_pending, ensure_history_processed.
  eapply wd_success; eauto; unfold balance_of; lia.
Qed.

End InMemoryLedger.

(** ** Invariants of the in-memory ledger *)

Section InMemoryInvariants.
Import InMemory.
Variable sha512_hex : string -> string.
Variable env : Env.

(** What a webhook call does to the ledger: nothing, or the settlement of
    the pending order it names, or the settlement of an inherited name. *)
Lemma webhook_cases s n :
  (webhook sha512_hex env s n).1 = s
  ∨ (∃ o, pendingOrders s !! order_id n = Some o
       ∧ (order_id n ∉ processedOrders s)
       ∧ (webhook sha512_hex env s n).1 = settle s (order_id n) o)
  ∨ (order_id n ∈ JS.inherited
     ∧ (order_id n ∉ processedOrders s)
     ∧ (webhook sha512_hex env s n).1 = settle_inherited s (order_id n)).
Proof.
  unfold webhook.
  case_bool_decide as Hsig; [by left|].
  case_bool_decide as Hproc; [by left|].
  destruct (_ || _); [|by left].
  destruct (pendingOrders s !! order_id n) as [o|] eqn:Ho.
  - right. left. by exists o.
  - case_bool_decide as Hin; [|by left]. right. by right.
Qed.


Lemma webhook_status s n :
  (webhook sha512_hex env s n).2.(status) = 403
  ∨ (webhook sha512_hex env s n).2.(status) = 200.
Proof.
  unfold webhook.
  case_bool_decide; [by left|].
  case_bool_decide; by right.
Qed.


Lemma init_ledger_ok : ledger_ok init.
Proof.
  split.
  - intros oid o H. cbn in H. by rewrite lookup_empty in H.
  - intros u. unfold balance_of. cbn. by rewrite lookup_empty.
Qed.

Lemma settle_ledger_ok s oid o :
  pendingOrders s !! oid = Some o -> ledger_ok s -> ledger_ok (settle s oid o).
Proof.
  intros Ho [Hpos Hbal]. split.
  - intros oid' o' H. cbn in H.
    apply lookup_delete_Some in H as [_ H]. by eapply Hpos.
  - intros u. destruct (decide (u = userId o)) as [->|Hne].
    + rewrite settle_balance_of. specialize (Hbal (userId o)).
      specialize (Hpos _ _ Ho). pose proof (parseInt_positive _ Hpos). lia.
    + unfold balance_of. rewrite settle_balance_other by done. apply Hbal.
Qed.

Lemma settle_inherited_balance_of s oid u :
  balance_of (settle_inherited s oid) u
  = if bool_decide (u = "undefined") then 0 else balance_of s u.
Proof.
  unfold balance_of. cbn [settle_inherited balances]. case_bool_decide as Hu.
  - subst. by rewrite lookup_insert_eq.
  - by rewrite lookup_insert_ne.
Qed.

Lemma settle_inherited_ledger_ok s oid : ledger_ok s -> ledger_ok (settle_inherited s oid).
Proof.
  intros [Hpos Hbal]. split; [done|].
  intros u. rewrite settle_inherited_balance_of. case_bool_decide; [lia|apply Hbal].
Qed.

Lemma withdraw_ledger_ok today s b :
  ledger_ok s -> ledger_ok (withdraw env today s b).1.
Proof.
  intros [Hpos Hbal].
  destruct (withdraw_spec env today s b) as [| | | u a | u a _ _ _ _ _ Hle _]; try done.
  - split.
    + intros oid o. rewrite ensure_history_pending. apply Hpos.
    + intros u'. unfold balance_of. rewrite ensure_history_balances. apply Hbal.
  - split; [done|].
    intros u'. unfold balance_of. cbn [balances].
    destruct (decide (u = u')) as [<-|Hne].
    + rewrite lookup_insert_eq. unfold balance_of in Hle.
      destruct (balances s !! u) as [[z|]|]; cbn in *; lia.
    + rewrite lookup_insert_ne by done. apply Hbal.
Qed.

Lemma handle_ledger_ok s r :
  0 < MIN_TOPUP env -> ledger_ok s -> ledger_ok (handle sha512_hex env s r).1.
Proof.
  intros Hmin Hok. destruct r as [snap uuid b|n|u|today b]; cbn [handle].
  - destruct (topup_cases env snap uuid s b) as [-> | (u & a & Ha & _ & ->)]; [done|].
    destruct Hok as [Hpos Hbal]. split; [|done].
    intros oid o H. cbn in H.
    apply lookup_insert_Some in H as [[_ <-]|[_ H]]; [cbn; lia|by eapply Hpos].
  - destruct (webhook_cases s n) as [-> | [(o & Ho & _ & ->) | (_ & _ & ->)]]; [done| |].
    + by apply settle_ledger_ok.
    + by apply settle_inherited_ledger_ok.
  - done.
  - by apply withdraw_ledger_ok.
Qed.

Lemma handle_shows_no_negative s r :
  ledger_ok s -> shows_no_negative (handle sha512_hex env s r).2.
Proof.
  intros [Hpos Hbal]. destruct r as [snap uuid b|n|u|today b]; cbn [handle].
  - unfold topup, shows_no_negative.
    destruct (tb_userId b); [|done]. destruct (tb_amount b); [|done].
    destruct (_ || _); [done|]. by destruct (snap _).
  - unfold webhook, shows_no_negative.
    case_bool_decide; [done|]. by case_bool_decide.
  - unfold shows_no_negative, balance. cbn [snd body].
    case_bool_decide; [done|].
    destruct (balances s !! u) eqn:Hu; [apply Hbal|]. by case_bool_decide.
  - destruct (withdraw_spec env today s b) as [| | | |u a _ _ _ _ _ Hle _]; try done.
    unfold shows_no_negative. cbn. unfold balance_of in Hle.
    destruct (balances s !! u) as [[z|]|]; cbn in *; [lia|done|done].
Qed.

Lemma serve_ledger_ok rs : ∀ s,
  0 < MIN_TOPUP env -> ledger_ok s ->
  ledger_ok (serve sha512_hex env s rs).1
  ∧ Forall shows_no_negative (serve sha512_hex env s rs).2.
Proof.
  induction rs as [|r rs IH]; intros s Hmin Hok; cbn [serve].
  - by split.
  - pose proof (handle_ledger_ok s r Hmin Hok) as Hok1.
    pose proof (handle_shows_no_negative s r Hok) as Hres.
    destruct (handle sha512_hex env s r) as [s1 res]. cbn [fst snd] in *.
    destruct (IH s1 Hmin Hok1) as [Hok2 Hall].
    destruct (serve sha512_hex env s1 rs) as [s2 ress]. cbn [fst snd] in *.
    split; [done|]. by constructor.
Qed.

(** A withdrawal of more than the balance is refused and changes nothing;
    the checks of the request itself come first. *)
Lemma withdraw_exceeding_balance today s b u a :
  wb_userId b = Some u -> wb_amount b = Some a ->
  0 <= balance_of s u -> balance_of s u < a ->
  ∃ m, withdraw env today s b = (s, reply 400 (Message m))
       ∧ (u ≠ "" -> a <= MAX_WITHDRAW env -> m = "Insufficient balance").
Proof.
  intros Hu Ha Hpos Hlt.
  pose proof (withdraw_spec env today s b) as H.
  destruct (withdraw env today s b) as [s' r]. cbn [fst snd] in H.
  destruct H as [Hf|u' a' Hu' Ha' ? ? Hmax|u' a' Hu' Ha' ? ? ? ?
                |u' a' Hu' Ha' ? ? ? Hle ?|u' a' Hu' Ha' ? ? ? Hle ?];
    rewrite ?Hu, ?Ha in *; simplify_eq.
  - eexists. split; [done|]. intros Hne _.
    cbn in Hf. apply orb_true_iff in Hf as [Hf|Hf]; apply bool_decide_eq_true in Hf.
    + done.
    + lia.
  - eexists. split; [done|]. intros _ ?. lia.
  - eexists. by split.
  - lia.
  - lia.
Qed.

End InMemoryInvariants.

(** ** The daily totals of the in-memory ledger *)

Section InMemoryDailyTotals.
Import InMemory.
Variable sha512_hex : string -> string.
Variable env : Env.










End InMemoryDailyTotals.

(** * Properties of the Firestore handlers *)

Section FirestoreFacts.
Import Firestore.
Variable sha512_hex : string -> string.
Variable key : string.

Lemma fs_webhook_bad_signature db n :
  signature_key n ≠ expectedSignature sha512_hex key n ->
  webhook sha512_hex key db n = (db, reply 403 (Message "Invalid signature")).
Proof. intros H. unfold webhook. by rewrite bool_decide_true by congruence. Qed.

Lemma callback_bad_signature db n :
  signature_key n ≠ expectedSignature sha512_hex key n ->
  midtrans_callback sha512_hex key db n = (db, reply 403 (Text "Invalid Signature")).
Proof. intros H. unfold midtrans_callback. by rewrite bool_decide_true by congruence. Qed.

Lemma fs_topup_below_minimum snap uuid db b a :
  tb_amount b = Some a -> a < 10000 ->
  topup snap uuid db b = (db, reply 400 (Message "Invalid request"), []).
Proof.
  intros Ha Hlt. unfold topup. rewrite Ha.
  destruct (tb_uid b) as [u|]; [|done].
  rewrite (bool_decide_true (a < 10000)) by done.
  by rewrite orb_true_r.
Qed.

Lemma fs_payment_below_minimum snap uuid u db b a :
  pb_amount b = Some a -> a < 10000 ->
  payment snap uuid (Verified u) db b
  = (db, reply 400 (Message "Minimal topup 10.000"), []).
Proof.
  intros Ha Hlt. unfold payment. rewrite Ha.
  rewrite (bool_decide_true (a < 10000)) by done.
  by rewrite orb_true_r.
Qed.

(** A correctly signed notification for an order that is not stored is
    acknowledged and changes nothing. *)
Lemma callback_unknown_order db n :
  signature_key n = expectedSignature sha512_hex key n -> order_id n ≠ "" -> transactions db !! order_id n = None ->
  midtrans_callback sha512_hex key db n = (db, reply 200 (Text "OK")).
Proof.
  intros Hsig Hne Hnone. unfold midtrans_callback.
  rewrite !bool_decide_false by congruence. by rewrite Hnone.
Qed.

(** A notification for an order that is already paid is acknowledged and
    changes nothing. *)
Lemma callback_already_settled db n t :
  signature_key n = expectedSignature sha512_hex key n -> order_id n ≠ "" ->
  transactions db !! order_id n = Some t -> status t = "success" ->
  midtrans_callback sha512_hex key db n = (db, reply 200 (Text "OK")).
Proof.
  intros Hsig Hne Ht Hst. unfold midtrans_callback.
  rewrite !bool_decide_false by congruence. rewrite Ht.
  by rewrite bool_decide_true.
Qed.

(** The settlement of a pending order whose user has a document. *)
Lemma callback_settles db n t ud :
  signature_key n = expectedSignature sha512_hex key n -> order_id n ≠ "" -> transaction_status n = "settlement" ->
  transactions db !! order_id n = Some t -> status t ≠ "success" ->
  uid t ≠ "" -> users db !! uid t = Some ud ->
  midtrans_callback sha512_hex key db n
  = ({| transactions := <[order_id n := set_status t "success"]> (transactions db);
        users := <[uid t := {| balance := Some (default 0 (balance ud) + amount t) |}]>
                   (users db);
        withdraw_requests := withdraw_requests db |},
     reply 200 (Text "OK")).
Proof.
  intros Hsig Hne Hts Ht Hst Hu Hud. unfold midtrans_callback, credit_transaction.
  rewrite !bool_decide_false by congruence. rewrite Ht.
  rewrite bool_decide_false by done. rewrite bool_decide_true by done.
  rewrite bool_decide_false by done. by rewrite Hud.
Qed.


(** Delivered again, a settlement finds the order paid. *)
Lemma callback_idempotent db n t ud :
  signature_key n = expectedSignature sha512_hex key n -> order_id n ≠ "" -> transaction_status n = "settlement" ->
  transactions db !! order_id n = Some t -> status t ≠ "success" ->
  uid t ≠ "" -> users db !! uid t = Some ud ->
  let db' := (midtrans_callback sha512_hex key db n).1 in
  users db' !! uid t = Some {| balance := Some (default 0 (balance ud) + amount t) |}
  ∧ settled db' (order_id n)
  ∧ midtrans_callback sha512_hex key db' n = (db', reply 200 (Text "OK")).
Proof.
  intros Hsig Hne Hts Ht Hst Hu Hud db'. subst db'.
  rewrite (callback_settles db n t ud) by done. cbn [fst].
  split_and!.
  - cbn. by rewrite lookup_insert_eq.
  - exists (set_status t "success"). cbn. by rewrite lookup_insert_eq.
  - eapply callback_already_settled; [done|done| |].
    + cbn. by rewrite lookup_insert_eq.
    + done.
Qed.

(** The withdrawal of part_000 refuses an amount that is missing, zero or
    negative. *)
Lemma fs_withdraw_not_positive u db b :
  (∀ a, wb_amount b = Some a -> a <= 0) ->
  withdraw (Verified u) db b = (db, reply 400 (Message "Invalid amount")).
Proof.
  intros Ha. unfold withdraw, verifyToken.
  destruct (wb_amount b) as [a|]; [|done].
  specialize (Ha a eq_refl).
  rewrite (bool_decide_true (a <= 0)) by done. by rewrite orb_true_r.
Qed.

(** It never leaves a negative balance, and refuses an amount above the
    balance. *)
Lemma fs_withdraw_no_negative auth db b u ud z :
  (∀ v vd w, users db !! v = Some vd -> balance vd = Some w -> 0 <= w) ->
  users (withdraw auth db b).1 !! u = Some ud -> balance ud = Some z -> 0 <= z.
Proof.
  intros Hok. unfold withdraw, verifyToken.
  destruct auth as [| |v]; [by apply Hok|by apply Hok|].
  destruct (wb_amount b) as [a|]; [|by apply Hok].
  destruct (_ || _); [by apply Hok|].
  case_bool_decide; [by apply Hok|].
  destruct (users db !! v) as [vd|] eqn:Hv; [|by apply Hok].
  case_bool_decide as Hlt; [by apply Hok|].
  case_bool_decide as Hacct; [by apply Hok|].
  cbn [fst users]. intros Hu Hz.
  apply lookup_insert_Some in Hu as [[_ <-]|[_ Hu]].
  - cbn in Hz. simplify_eq. lia.
  - by eapply Hok.
Qed.

Lemma fs_withdraw_insufficient u db b a ud :
  wb_amount b = Some a -> 0 < a -> u ≠ "" ->
  users db !! u = Some ud -> default 0 (balance ud) < a ->
  withdraw (Verified u) db b = (db, reply 400 (Message "Saldo tidak cukup")).
Proof.
  intros Ha Hpos Hu Hud Hlt. unfold withdraw, verifyToken. rewrite Ha.
  cbn [JS.falsy_int]. rewrite !bool_decide_false by lia. cbn [orb].
  rewrite bool_decide_false by done. rewrite Hud.
  by rewrite bool_decide_true.
Qed.

End FirestoreFacts.

(** ** What the in-memory withdrawal checks of the amount *)

Section InMemoryAmountChecks.
Import InMemory.
Variable env : Env.

(** A missing or zero amount is refused. *)
Lemma withdraw_no_amount today s b :
  JS.falsy_int (wb_amount b) = true ->
  withdraw env today s b = (s, reply 400 (Message "Invalid request")).
Proof.
  intros Hf. unfold withdraw.
  destruct (wb_userId b) as [u|]; [|done].
  destruct (wb_amount b) as [a|]; [|done].
  rewrite Hf. by rewrite orb_true_r.
Qed.

(** An amount above MAX_WITHDRAW is refused. *)
Lemma withdraw_above_max today s b a :
  wb_amount b = Some a -> a > MAX_WITHDRAW env ->
  ∃ m, withdraw env today s b = (s, reply 400 (Message m)).
Proof.
  intros Ha Hmax. unfold withdraw. rewrite Ha.
  destruct (wb_userId b) as [u|]; [|by eexists].
  destruct (_ || _); [by eexists|].
  rewrite bool_decide_true by done. by eexists.
Qed.

(** A negative amount passes every check of a user whose balance is not
    negative: the withdrawal is answered 200 and adds the amount's absolute
    value to a stored balance. *)
Lemma withdraw_negative_amount today s u a :
  u ≠ "" -> a < 0 -> a <= MAX_WITHDRAW env -> 0 <= balance_of s u ->
  todayTotal s u today + a <= DAILY_WITHDRAW_LIMIT env ->
  (withdraw env today s {| wb_userId := Some u; wb_amount := Some a |}).2
  = reply 200 (WithdrawReply "Withdraw success (simulation)"
                 (JS.minus (balances s !! u) a))
  ∧ balances (withdraw env today s {| wb_userId := Some u; wb_amount := Some a |}).1 !! u
    = Some (JS.minus (balances s !! u) a).
Proof.
  intros Hu Ha Hmax Hbal Hday. unfold withdraw.
  cbn [wb_userId wb_amount JS.falsy_str JS.falsy_int].
  unfold balance_of in Hbal.
  rewrite (bool_decide_false (u = "")), (bool_decide_false (a = 0)) by (done || lia).
  cbn [orb].
  rewrite (bool_decide_false (a > MAX_WITHDRAW env)) by lia.
  rewrite (bool_decide_false (JS.or_zero (balances s !! u) < a)) by lia.
  rewrite ensure_history_total.
  rewrite (bool_decide_false (todayTotal s u today + a > _)) by lia.
  cbn [fst snd balances]. rewrite ensure_history_balances.
  by rewrite lookup_insert_eq.
Qed.

End InMemoryAmountChecks.

(** ** Worked examples *)

(** The sample run: the top-up, its settlement, a withdrawal of 20000, the
    balance, and a withdrawal of more than what is left. *)
Example sample_run_responses :
  (InMemory.serve sample_digest sample_env InMemory.init sample_run).2
  = [ reply 200 (TopupReply "TOPUP-1" "token-TOPUP-1" "https://pay.example/TOPUP-1");
      reply 200 (Message "Webhook processed");
      reply 200 (WithdrawReply "Withdraw success (simulation)" (JS.Num 30000));
      reply 200 (BalanceReply "alice" 30000);
      reply 400 (Message "Insufficient balance") ].
Proof. by vm_compute. Qed.

(** The daily limit of 20,000,000: after two withdrawals of 8,000,000, a
    third one on the same day is refused and one on the next day passes; a
    single request of 15,000,000 is above MAX_WITHDRAW. *)
Example daily_limit_example :
  let funded :=
    {| InMemory.balances := {["alice" := JS.Num 40000000]};
       InMemory.pendingOrders := ∅;
       InMemory.processedOrders := ∅;
       InMemory.withdrawHistory := ∅ |} in
  let ask day a :=
    InMemory.Withdraw day
      {| InMemory.wb_userId := Some "alice"; InMemory.wb_amount := Some a |} in
  (InMemory.serve sample_digest sample_env funded
     [ ask "2024-05-01" 8000000; ask "2024-05-01" 8000000; ask "2024-05-01" 8000000;
       ask "2024-05-02" 8000000; ask "2024-05-02" 15000000 ]).2
  = [ reply 200 (WithdrawReply "Withdraw success (simulation)" (JS.Num 32000000));
      reply 200 (WithdrawReply "Withdraw success (simulation)" (JS.Num 24000000));
      reply 400 (Message "Daily limit exceeded");
      reply 200 (WithdrawReply "Withdraw success (simulation)" (JS.Num 16000000));
      reply 400 (Message "Exceeds max withdraw") ].
Proof. by vm_compute. Qed.

(** The Firestore callback on the sample database: the settlement credits
    alice and marks the order, and a second delivery changes nothing. *)
Example callback_example :
  let db1 := (Firestore.midtrans_callback sample_digest "server-key"
                sample_db sample_settlement).1 in
  Firestore.balance <$> Firestore.users db1 !! "alice" = Some (Some 50000)
  ∧ Firestore.status <$> Firestore.transactions db1 !! "TOPUP-1" = Some "success"
  ∧ Firestore.midtrans_callback sample_digest "server-key" db1 sample_settlement
    = (db1, reply 200 (Text "OK")).
Proof. cbn zeta. split_and!; by vm_compute. Qed.

(** * The claims *)

(** In the in-memory server a correctly signed settlement (or capture) for
    a pending, not yet settled order with ordinary names, delivered
    [k >= 1] times in a row, credits the order to its user exactly once and
    leaves one marker for the order; the first delivery answers 200 and so
    does every later one, which finds the order processed and changes
    nothing. *)
Lemma idempotent_settlement
    (sha512_hex : string -> string) (env : InMemory.Env)
    (s : InMemory.State) (n : Notification) (o : InMemory.Order) (k : nat) :
  signature_key n
    = expectedSignature sha512_hex (InMemory.env_MIDTRANS_SERVER_KEY env) n ->
  transaction_status n = "settlement" ∨ transaction_status n = "capture" ->
  InMemory.pendingOrders s !! order_id n = Some o ->
  order_id n ∉ InMemory.processedOrders s ->
  JS.ordinary (order_id n) -> JS.ordinary (InMemory.userId o) ->
  (1 <= k)%nat ->
  let s' := (InMemory.deliver sha512_hex env n k s).1 in
  (InMemory.deliver sha512_hex env n k s).2
    = reply 200 (Message "Webhook processed")
      :: replicate (k - 1) (reply 200 (Message "Already processed"))
  ∧ InMemory.balance_of s' (InMemory.userId o)
    = InMemory.balance_of s (InMemory.userId o) + JS.parseInt (InMemory.amount o)
  ∧ (∀ u, u ≠ InMemory.userId o -> InMemory.balances s' !! u = InMemory.balances s !! u)
  ∧ InMemory.processedOrders s' = {[order_id n]} ∪ InMemory.processedOrders s
  ∧ InMemory.pendingOrders s' = delete (order_id n) (InMemory.pendingOrders s)
  ∧ InMemory.withdrawHistory s' = InMemory.withdrawHistory s
  ∧ InMemory.webhook sha512_hex env s' n = (s', reply 200 (Message "Already processed")).
Proof.
  intros Hsig Hts Hsome Hnin _ _ Hk s'.
  assert (Hrun : InMemory.deliver sha512_hex env n k s
                 = (InMemory.settle s (order_id n) o,
                    reply 200 (Message "Webhook processed")
                    :: replicate (k - 1) (reply 200 (Message "Already processed")))).
  { destruct k as [|k]; [lia|].
    unfold InMemory.deliver. cbn [replicate InMemory.serve InMemory.handle].
    rewrite (webhook_settles _ _ _ _ o) by done.
    rewrite deliver_again by done.
    by replace (S k - 1)%nat with k by lia. }
  subst s'. rewrite Hrun. cbn [fst snd].
  split_and!.
  - done.
  - apply settle_balance_of.
  - intros u Hu. by apply settle_balance_other.
  - done.
  - done.
  - done.
  - apply webhook_processed; [done|apply settle_processed].
Qed.

(** C1 fails on the /api/midtrans-callback of src/unnamed/part_000 for a
    user without a document in "users", which no handler of the repository
    creates. The payment of 50000 by the verified user alice is accepted and
    stored as pending; its correctly signed settlement, delivered three
    times, is answered 500 "Error" each time, credits nothing and leaves
    the order pending. *)
Theorem settlement_lost_without_user_document :
  let out1 := Firestore.payment sample_snap "1" (Firestore.Verified "alice") no_documents
                {| Firestore.pb_amount := Some 50000 |} in
  let out2 := fs_deliver sample_digest "server-key" payment_settlement 3 out1.1.1 in
  out1.1.2 = reply 200 (TokenReply "token-TOP-1" "https://pay.example/TOP-1")
  ∧ Firestore.transactions out1.1.1 !! "TOP-1"
    = Some {| Firestore.uid := "alice"; Firestore.amount := 50000;
              Firestore.status := "pending" |}
  ∧ out2.2 = [reply 500 (Text "Error"); reply 500 (Text "Error"); reply 500 (Text "Error")]
  ∧ Firestore.transactions out2.1 !! "TOP-1"
    = Some {| Firestore.uid := "alice"; Firestore.amount := 50000;
              Firestore.status := "pending" |}
  ∧ Firestore.users out2.1 !! "alice" = None
  ∧ fs_balance out2.1 "alice" = 0.
Proof. cbn zeta. split_and!; by vm_compute. Qed.




(** What holds of the balances of the in-memory server: whatever requests
    with ordinary names it has served, with a positive MIN_TOPUP, no stored
    balance is a negative number, GET /api/balance and every response sent
    on the way show no negative number, and a withdrawal of more than the
    balance is refused with 400 and changes nothing, with "Insufficient
    balance" once the request passes the checks the source makes first. A
    stored balance can be [NaN]. *)
Lemma balance_never_negative
    (sha512_hex : string -> string) (env : InMemory.Env) (rs : list InMemory.request) :
  0 < InMemory.MIN_TOPUP env ->
  Forall InMemory.ordinary_request rs ->
  let s := (InMemory.serve sha512_hex env InMemory.init rs).1 in
  InMemory.no_negative_balance s
  ∧ (∀ u z, InMemory.balances s !! u = Some (JS.Num z) -> 0 <= z)
  ∧ Forall InMemory.shows_no_negative (InMemory.serve sha512_hex env InMemory.init rs).2
  ∧ ∀ today b u a,
      InMemory.wb_userId b = Some u -> InMemory.wb_amount b = Some a ->
      JS.ordinary u -> JS.ordinary today ->
      InMemory.balance_of s u < a ->
      ∃ m, InMemory.withdraw env today s b = (s, reply 400 (Message m))
           ∧ (u ≠ "" -> a <= InMemory.MAX_WITHDRAW env -> m = "Insufficient balance").
Proof.
  intros Hmin _ s.
  destruct (serve_ledger_ok sha512_hex env rs InMemory.init Hmin (init_ledger_ok))
    as [[Hpos Hbal] Hall].
  fold s in Hpos, Hbal. split_and!.
  - done.
  - intros u z Hu. specialize (Hbal u). unfold InMemory.balance_of in Hbal.
    by rewrite Hu in Hbal.
  - done.
  - intros today b u a Hu Ha _ _ Hlt.
    apply withdraw_exceeding_balance; [done|done|apply Hbal|done].
Qed.

(** C3 fails on the in-memory server: a balance that is not a number at
    all. On the empty server the request to withdraw -5 for bob, who has no
    balance, passes every check, is answered 200 with the remaining balance
    [NaN] and stores [NaN] as bob's balance, which the balance query then
    reports as 0. *)
Theorem withdrawal_stores_nan_balance :
  let out := InMemory.serve sample_digest sample_env InMemory.init nan_run in
  out.2 = [ reply 200 (WithdrawReply "Withdraw success (simulation)" JS.NaN);
            reply 200 (BalanceReply "bob" 0) ]
  ∧ InMemory.balances out.1 !! "bob" = Some JS.NaN
  ∧ InMemory.todayTotal out.1 "bob" "2024-05-01" = -5.
Proof. cbn zeta. split_and!; by vm_compute. Qed.




(** C5. Signature rejection: a notification whose signature_key is not the
    digest of order_id, status_code, gross_amount and the server key is
    answered 403 and changes nothing, by the in-memory webhook, by the
    Firestore callback and by the Firestore webhook alike. *)
Theorem signature_rejection
    (sha512_hex : string -> string) (env : InMemory.Env)
    (s : InMemory.State) (db : Firestore.Db) (n : Notification) :
  signature_key n
    ≠ expectedSignature sha512_hex (InMemory.env_MIDTRANS_SERVER_KEY env) n ->
  InMemory.webhook sha512_hex env s n = (s, reply 403 (Message "Invalid signature"))
  ∧ Firestore.midtrans_callback sha512_hex (InMemory.env_MIDTRANS_SERVER_KEY env) db n
    = (db, reply 403 (Text "Invalid Signature"))
  ∧ Firestore.webhook sha512_hex (InMemory.env_MIDTRANS_SERVER_KEY env) db n
    = (db, reply 403 (Message "Invalid signature")).
Proof.
  intros Hsig. split_and!.
  - by apply webhook_bad_signature.
  - by apply callback_bad_signature.
  - by apply fs_webhook_bad_signature.
Qed.

(** The settlement of the sample order with its gross amount altered and
    the signature left as it was. *)
Lemma signature_rejection_witness :
  InMemory.webhook sample_digest sample_env sample_pending
    (with_gross_amount sample_settlement "1.00")
  = (sample_pending, reply 403 (Message "Invalid signature")).
Proof.
  refine (proj1 (signature_rejection sample_digest sample_env sample_pending sample_db
                   (with_gross_amount sample_settlement "1.00") _)).
  vm_compute. discriminate.
Defined.

(** C6 fails on the in-memory server: a withdrawal of a negative amount is
    accepted. After a settled top-up of 100000, the request to withdraw
    -50000 is answered 200, raises the balance to 150000 and lowers the
    total of the day to -50000. *)
Theorem negative_withdrawal_accepted :
  let out := InMemory.serve sample_digest sample_env InMemory.init negative_withdrawal_run in
  out.2 = [ reply 200 (TopupReply "TOPUP-1" "token-TOPUP-1" "https://pay.example/TOPUP-1");
            reply 200 (Message "Webhook processed");
            reply 200 (WithdrawReply "Withdraw success (simulation)" (JS.Num 150000)) ]
  ∧ InMemory.balance_of out.1 "alice" = 150000
  ∧ InMemory.todayTotal out.1 "alice" "2024-05-01" = -50000.
Proof. cbn zeta. split_and!; by vm_compute. Qed.

(** A correctly signed notification whose order id is ordinary and names no
    pending order is answered 200 by the in-memory webhook and leaves the
    whole state as it was. *)
Lemma unknown_order_tolerance
    (sha512_hex : string -> string) (env : InMemory.Env)
    (s : InMemory.State) (n : Notification) :
  signature_key n
    = expectedSignature sha512_hex (InMemory.env_MIDTRANS_SERVER_KEY env) n ->
  JS.ordinary (order_id n) ->
  InMemory.pendingOrders s !! order_id n = None ->
  (InMemory.webhook sha512_hex env s n).1 = s
  ∧ (InMemory.webhook sha512_hex env s n).2.(status) = 200.
Proof.
  intros Hsig Hord Hnone.
  destruct (decide (order_id n ∈ InMemory.processedOrders s)) as [Hin|Hnin].
  - by rewrite webhook_processed.
  - by rewrite webhook_unknown.
Qed.

(** C7 fails on both notification handlers. The in-memory webhook takes
    the order id "toString", which names no order, for a pending order,
    because [pendingOrders["toString"]] is the function every object
    inherits: the correctly signed settlement on the empty server is
    answered 200, stores [NaN] as the balance of the user "undefined" and
    marks "toString" as processed. The /api/midtrans-callback of
    src/unnamed/part_000 answers 500 "Error" to a correctly signed
    notification with an empty order id, which names no order either. *)
Theorem unknown_order_not_tolerated :
  let out := InMemory.webhook sample_digest sample_env InMemory.init inherited_settlement in
  InMemory.pendingOrders InMemory.init !! "toString" = None
  ∧ out.2 = reply 200 (Message "Webhook processed")
  ∧ out.1 ≠ InMemory.init
  ∧ InMemory.balances out.1 !! "undefined" = Some JS.NaN
  ∧ "toString" ∈ InMemory.processedOrders out.1
  ∧ Firestore.transactions sample_db !! "" = None
  ∧ Firestore.midtrans_callback sample_digest "server-key" sample_db empty_id_settlement
    = (sample_db, reply 500 (Text "Error")).
Proof.
  cbn zeta. split_and!; by vm_compute.
Qed.

(** C8, as the code has it. In the in-memory server a top-up of 50000 for
    a user with an ordinary name that the gateway accepts leaves a pending
    order; a correctly signed settlement for it is answered 200, raises the
    user's balance by exactly 50000 and moves the order from the pending to
    the processed ones; any later notification for the same order, an
    expire among them, changes nothing, and is answered 200 when it is
    correctly signed. *)
Theorem round_trip_in_memory
    (sha512_hex : string -> string) (env : InMemory.Env) (snap : Snap)
    (uuid : string) (tx : SnapTransaction) (s : InMemory.State) (u : string)
    (n_settle : Notification) :
  let oid := "TOPUP-" +:+ uuid in
  let well_signed n :=
    signature_key n
    = expectedSignature sha512_hex (InMemory.env_MIDTRANS_SERVER_KEY env) n in
  InMemory.MIN_TOPUP env <= 50000 ->
  u ≠ "" ->
  InMemory.exact_credit s {| InMemory.userId := u; InMemory.amount := 50000 |} ->
  snap {| sp_order_id := oid; sp_gross_amount := 50000 |} = Some tx ->
  oid ∉ InMemory.processedOrders s ->
  order_id n_settle = oid ->
  transaction_status n_settle = "settlement" ->
  well_signed n_settle ->
  let out1 := InMemory.topup env snap uuid s
                {| InMemory.tb_userId := Some u; InMemory.tb_amount := Some 50000 |} in
  let out2 := InMemory.webhook sha512_hex env out1.1.1 n_settle in
  out1.1.2 = reply 200 (TopupReply oid (token tx) (redirect_url tx))
  ∧ InMemory.pendingOrders out1.1.1 !! oid
    = Some {| InMemory.userId := u; InMemory.amount := 50000 |}
  ∧ out2.2 = reply 200 (Message "Webhook processed")
  ∧ InMemory.balance_of out2.1 u = InMemory.balance_of s u + 50000
  ∧ oid ∈ InMemory.processedOrders out2.1
  ∧ InMemory.pendingOrders out2.1 !! oid = None
  ∧ ∀ n_expire,
      order_id n_expire = oid ->
      (InMemory.webhook sha512_hex env out2.1 n_expire).1 = out2.1
      ∧ (well_signed n_expire ->
         (InMemory.webhook sha512_hex env out2.1 n_expire).2
         = reply 200 (Message "Already processed")).
Proof.
  intros oid well_signed Hmin Hu _ Hsnap Hnin Hoid Hts Hsig out1 out2.
  subst out2 out1.
  rewrite (topup_accepted env snap uuid s u 50000 tx) by (done || lia).
  cbn [fst snd].
  set (s1 := {| InMemory.balances := _ |}).
  assert (Hp : InMemory.pendingOrders s1 !! order_id n_settle
               = Some {| InMemory.userId := u; InMemory.amount := 50000 |}).
  { rewrite Hoid. subst s1. cbn. by rewrite lookup_insert_eq. }
  rewrite (webhook_settles sha512_hex env s1 n_settle
             {| InMemory.userId := u; InMemory.amount := 50000 |} Hsig);
    [|by rewrite Hoid|by left|done].
  cbn [fst snd]. rewrite Hoid. fold oid.
  split_and!.
  - done.
  - by rewrite <- Hoid.
  - done.
  - apply (settle_balance_of s1 oid {| InMemory.userId := u; InMemory.amount := 50000 |}).
  - apply settle_processed.
  - cbn. by rewrite lookup_delete_eq.
  - intros n_expire Hoid'.
    destruct (decide (well_signed n_expire)) as [Hs|Hs].
    + rewrite webhook_processed; [done|done|rewrite Hoid'; apply settle_processed].
    + rewrite webhook_bad_signature by done. done.
Qed.

Lemma round_trip_in_memory_witness :
  let out1 := InMemory.topup sample_env sample_snap "1" InMemory.init
                {| InMemory.tb_userId := Some "alice"; InMemory.tb_amount := Some 50000 |} in
  let out2 := InMemory.webhook sample_digest sample_env out1.1.1 sample_settlement in
  InMemory.balance_of out2.1 "alice" = InMemory.balance_of InMemory.init "alice" + 50000
  ∧ (InMemory.webhook sample_digest sample_env out2.1 sample_expire).1 = out2.1.
Proof.
  assert (Hmin : InMemory.MIN_TOPUP sample_env <= 50000) by (vm_compute; discriminate).
  assert (Hu : "alice" ≠ "") by discriminate.
  assert (Hcredit : InMemory.exact_credit InMemory.init
                      {| InMemory.userId := "alice"; InMemory.amount := 50000 |}).
  { split; [ordinary_key|]. split; vm_compute; split; discriminate. }
  assert (Hnin : "TOPUP-" +:+ "1" ∉ InMemory.processedOrders InMemory.init)
    by (vm_compute; discriminate).
  exact (let H := round_trip_in_memory sample_digest sample_env sample_snap "1"
                    (Build_SnapTransaction "token-TOPUP-1" "https://pay.example/TOPUP-1")
                    InMemory.init "alice" sample_settlement
                    Hmin Hu Hcredit eq_refl Hnin eq_refl eq_refl eq_refl in
         conj (proj1 (proj2 (proj2 (proj2 H))))
              (proj1 (proj2 (proj2 (proj2 (proj2 (proj2 (proj2 H)))))
                        sample_expire eq_refl))).
Defined.

(** C8 fails on the /api/topup and /api/midtrans/webhook of src/server.js:
    after a top-up of 50000 the settlement marks the order as paid and
    leaves the user's balance as it was, and the expire that follows turns
    the paid order into an expired one. *)
Lemma fs_expire_after_settlement :
  let out1 := Firestore.topup sample_snap "1" empty_db
                {| Firestore.tb_uid := Some "alice"; Firestore.tb_amount := Some 50000 |} in
  let db2 := (Firestore.webhook sample_digest "server-key" out1.1.1 sample_settlement).1 in
  let db3 := (Firestore.webhook sample_digest "server-key" db2 sample_expire).1 in
  Firestore.status <$> Firestore.transactions out1.1.1 !! "TOPUP-1" = Some "pending"
  ∧ Firestore.status <$> Firestore.transactions db2 !! "TOPUP-1" = Some "success"
  ∧ Firestore.balance <$> Firestore.users db2 !! "alice" = Some (Some 0)
  ∧ Firestore.status <$> Firestore.transactions db3 !! "TOPUP-1" = Some "expired".
Proof. cbn zeta. split_and!; by vm_compute. Qed.

(** C9. Minimum top-up: a top-up whose amount is below MIN_TOPUP is answered
    400 "Invalid request" by the in-memory server without any call to the
    gateway client and without a pending order; the /api/topup of
    src/server.js does the same below its fixed minimum of 10000. *)
Theorem minimum_topup_enforced
    (env : InMemory.Env) (snap : Snap) (uuid : string)
    (s : InMemory.State) (b : InMemory.TopupBody)
    (db : Firestore.Db) (fb : Firestore.TopupBody) (a : Z) :
  (InMemory.tb_amount b = Some a -> a < InMemory.MIN_TOPUP env ->
   InMemory.topup env snap uuid s b = (s, reply 400 (Message "Invalid request"), []))
  ∧ (Firestore.tb_amount fb = Some a -> a < 10000 ->
     Firestore.topup snap uuid db fb = (db, reply 400 (Message "Invalid request"), [])).
Proof.
  split.
  - apply topup_below_minimum.
  - apply fs_topup_below_minimum.
Qed.

(** A top-up of MIN_TOPUP - 1. *)
Lemma minimum_topup_enforced_witness :
  InMemory.topup sample_env sample_snap "1" InMemory.init
    {| InMemory.tb_userId := Some "alice";
       InMemory.tb_amount := Some (InMemory.MIN_TOPUP sample_env - 1) |}
  = (InMemory.init, reply 400 (Message "Invalid request"), [])
  ∧ Firestore.topup sample_snap "1" sample_db
      {| Firestore.tb_uid := Some "alice"; Firestore.tb_amount := Some 9999 |}
    = (sample_db, reply 400 (Message "Invalid request"), []).
Proof.
  split.
  - apply (proj1 (minimum_topup_enforced sample_env sample_snap "1" InMemory.init
                    {| InMemory.tb_userId := Some "alice";
                       InMemory.tb_amount := Some (InMemory.MIN_TOPUP sample_env - 1) |}
                    sample_db
                    {| Firestore.tb_uid := Some "alice"; Firestore.tb_amount := Some 9999 |}
                    (InMemory.MIN_TOPUP sample_env - 1))).
    + reflexivity.
    + lia.
  - apply (proj2 (minimum_topup_enforced sample_env sample_snap "1" InMemory.init
                    {| InMemory.tb_userId := Some "alice";
                       InMemory.tb_amount := Some 9999 |}
                    sample_db
                    {| Firestore.tb_uid := Some "alice"; Firestore.tb_amount := Some 9999 |}
                    9999)).
    + reflexivity.
    + lia.
Defined.

(** GET /api/balance/:userId always answers 200 and leaves the state as it
    is; for a user with an ordinary name it reports 0 when there is no
    stored balance and the stored number otherwise. *)
Lemma balance_query (s : InMemory.State) (u : string) :
  (InMemory.balance s u).1 = s
  ∧ (InMemory.balance s u).2.(status) = 200
  ∧ (JS.ordinary u -> InMemory.balances s !! u = None ->
     (InMemory.balance s u).2.(body) = BalanceReply u 0)
  ∧ (∀ z, JS.ordinary u -> InMemory.balances s !! u = Some (JS.Num z) ->
     (InMemory.balance s u).2.(body) = BalanceReply u z).
Proof.
  unfold InMemory.balance, InMemory.balance_of. cbn [fst snd status body].
  assert (Hproto : JS.ordinary u -> u ≠ "__proto__").
  { intros Hord ->. apply Hord. unfold JS.inherited. rewrite !elem_of_cons. tauto. }
  split_and!; [done|done| |].
  - intros Hord ->. rewrite bool_decide_false by auto. by rewrite bool_decide_false.
  - intros z Hord ->. by rewrite bool_decide_false by auto.
Qed.

(** C10 fails on the in-memory server for a user id that names a property
    every object inherits. On the empty server, where no user has a ledger
    account, GET /api/balance/constructor is answered with the user id and
    no balance at all, because [balances["constructor"]] is a function, and
    GET /api/balance/__proto__ with an empty object for a balance. *)
Theorem balance_of_inherited_name :
  InMemory.balances InMemory.init !! "constructor" = None
  ∧ InMemory.balance InMemory.init "constructor"
    = (InMemory.init, reply 200 (BalanceOmitted "constructor"))
  ∧ InMemory.balance InMemory.init "__proto__"
    = (InMemory.init, reply 200 (BalanceObject "__proto__")).
Proof. split_and!; by vm_compute. Qed.

(** * Further properties of the in-memory server *)

Section InMemoryWebhook.
Import InMemory.
Variable sha512_hex : string -> string.
Variable env : Env.

(** X1. The webhook is idempotent on the state: whatever the state and
    the notification, signed or not, delivering it a second time changes
    nothing more. *)
Theorem webhook_idempotent (s : State) (n : Notification) :
  (webhook sha512_hex env (webhook sha512_hex env s n).1 n).1
  = (webhook sha512_hex env s n).1.
Proof.
  destruct (decide (signature_key n
                    = expectedSignature sha512_hex (env_MIDTRANS_SERVER_KEY env) n))
    as [Hsig|Hsig].
  - destruct (webhook_cases sha512_hex env s n)
      as [Hsame | [(o & Ho & Hnin & Hset) | (Hin & Hnin & Hset)]].
    + by rewrite !Hsame.
    + rewrite Hset. rewrite webhook_processed; [done|done|apply settle_processed].
    + rewrite Hset. rewrite webhook_processed; [done|done|apply settle_inherited_processed].
  - by rewrite !webhook_bad_signature.
Qed.

(** X2. The credit does not depend on the amount the notification states:
    two correctly signed settlement or capture notifications for the same
    order, whatever their gross_amount and status_code, leave the same
    state, in which the amount stored with the order was credited. *)
Theorem webhook_ignores_gross_amount (s : State) (n1 n2 : Notification) :
  signature_key n1 = expectedSignature sha512_hex (env_MIDTRANS_SERVER_KEY env) n1 ->
  signature_key n2 = expectedSignature sha512_hex (env_MIDTRANS_SERVER_KEY env) n2 ->
  order_id n1 = order_id n2 ->
  transaction_status n1 = "settlement" ∨ transaction_status n1 = "capture" ->
  transaction_status n2 = "settlement" ∨ transaction_status n2 = "capture" ->
  webhook sha512_hex env s n1 = webhook sha512_hex env s n2.
Proof.
  intros Hs1 Hs2 Hoid Ht1 Ht2.
  destruct (decide (order_id n1 ∈ processedOrders s)) as [Hin|Hnin].
  - rewrite !webhook_processed; [done|done|by rewrite <- Hoid|done|done].
  - destruct (pendingOrders s !! order_id n1) as [o|] eqn:Ho.
    + rewrite (webhook_settles _ _ s n1 o), (webhook_settles _ _ s n2 o);
        [by rewrite Hoid|done|by rewrite <- Hoid|done|by rewrite <- Hoid|done..].
    + rewrite (webhook_no_order _ _ s n1) by done.
      rewrite (webhook_no_order _ _ s n2);
        [by rewrite Hoid|done|by rewrite <- Hoid|done|by rewrite <- Hoid].
Qed.

(** X3. A notification that is neither a settlement nor a capture (an
    expire, say) does not use up a pending order: the settlement that comes
    after it credits the order as if it had come alone. *)
Theorem settlement_after_other_status (s : State) (n_other n : Notification) :
  signature_key n_other
    = expectedSignature sha512_hex (env_MIDTRANS_SERVER_KEY env) n_other ->
  transaction_status n_other ≠ "settlement" ->
  transaction_status n_other ≠ "capture" ->
  (webhook sha512_hex env s n_other).2.(status) = 200
  ∧ webhook sha512_hex env (webhook sha512_hex env s n_other).1 n
    = webhook sha512_hex env s n.
Proof.
  intros Hsig H1 H2.
  destruct (decide (order_id n_other ∈ processedOrders s)) as [Hin|Hnin].
  - by rewrite webhook_processed.
  - by rewrite webhook_other_status.
Qed.

(** The settlement markers only grow: one step. *)
Lemma handle_processed_mono s r :
  processedOrders s ⊆ processedOrders (handle sha512_hex env s r).1.
Proof.
  destruct r as [snap uuid b|n|u|today b]; cbn [handle].
  - by destruct (topup_cases env snap uuid s b) as [-> | (? & ? & _ & _ & ->)].
  - destruct (webhook_cases sha512_hex env s n) as [-> | [(o & _ & _ & ->) | (_ & _ & ->)]];
      [done|..]; cbn; apply union_subseteq_r.
  - done.
  - destruct (withdraw_spec env today s b); try done.
    by rewrite ensure_history_processed.
Qed.

(** X4. No request ever removes a settlement marker: the orders processed
    before a run are still processed after it, and a notification for one
    of them is answered without any change of the state. *)
Theorem processed_orders_kept (rs : list request) (s : State) (oid : string) :
  oid ∈ processedOrders s ->
  oid ∈ processedOrders (serve sha512_hex env s rs).1
  ∧ ∀ n, order_id n = oid ->
      (webhook sha512_hex env (serve sha512_hex env s rs).1 n).1
      = (serve sha512_hex env s rs).1.
Proof.
  intros Hin.
  assert (Hkept : oid ∈ processedOrders (serve sha512_hex env s rs).1).
  { revert s Hin. induction rs as [|r rs IH]; intros s Hin; cbn [serve]; [done|].
    pose proof (handle_processed_mono s r) as Hmono.
    destruct (handle sha512_hex env s r) as [s1 res]. cbn [fst] in Hmono.
    specialize (IH s1 (Hmono _ Hin)).
    by destruct (serve sha512_hex env s1 rs) as [s2 ress]. }
  split; [done|].
  intros n Hoid.
  destruct (decide (signature_key n
                    = expectedSignature sha512_hex (env_MIDTRANS_SERVER_KEY env) n))
    as [Hsig|Hsig].
  - rewrite webhook_processed; [done|done|by rewrite Hoid].
  - by rewrite webhook_bad_signature.
Qed.

End InMemoryWebhook.

Lemma webhook_ignores_gross_amount_witness :
  InMemory.webhook sample_digest sample_env sample_pending sample_settlement
  = InMemory.webhook sample_digest sample_env sample_pending sample_capture.
Proof.
  exact (webhook_ignores_gross_amount sample_digest sample_env sample_pending
           sample_settlement sample_capture eq_refl eq_refl eq_refl
           (or_introl eq_refl) (or_intror eq_refl)).
Defined.

Lemma settlement_after_other_status_witness :
  InMemory.webhook sample_digest sample_env
    (InMemory.webhook sample_digest sample_env sample_pending sample_expire).1
    sample_settlement
  = InMemory.webhook sample_digest sample_env sample_pending sample_settlement.
Proof.
  assert (H1 : transaction_status sample_expire ≠ "settlement") by discriminate.
  assert (H2 : transaction_status sample_expire ≠ "capture") by discriminate.
  exact (proj2 (settlement_after_other_status sample_digest sample_env sample_pending
                  sample_expire sample_settlement eq_refl H1 H2)).
Defined.

Lemma processed_orders_kept_witness :
  "TOPUP-1" ∈ InMemory.processedOrders
                (InMemory.serve sample_digest sample_env sample_settled sample_run).1.
Proof.
  assert (Hin : "TOPUP-1" ∈ InMemory.processedOrders sample_settled)
    by (vm_compute; reflexivity).
  exact (proj1 (processed_orders_kept sample_digest sample_env sample_run
                  sample_settled "TOPUP-1" Hin)).
Defined.

Section InMemoryAccounts.
Import InMemory Accounting.
Variable sha512_hex : string -> string.
Variable env : Env.

(** The outcome of a top-up: refused with the state as it was, or accepted
    by the gateway and stored. *)
Lemma topup_outcome snap uuid s b :
  ((topup env snap uuid s b).1.1 = s ∧ (topup env snap uuid s b).1.2.(status) ≠ 200)
  ∨ ∃ u a tx,
      tb_userId b = Some u ∧ tb_amount b = Some a
      ∧ u ≠ "" ∧ a ≠ 0 ∧ MIN_TOPUP env <= a
      ∧ snap {| sp_order_id := "TOPUP-" +:+ uuid; sp_gross_amount := a |} = Some tx
      ∧ topup env snap uuid s b
        = ({| balances := balances s;
              pendingOrders :=
                <["TOPUP-" +:+ uuid := {| userId := u; amount := a |}]> (pendingOrders s);
              processedOrders := processedOrders s;
              withdrawHistory := withdrawHistory s |},
           reply 200 (TopupReply ("TOPUP-" +:+ uuid) (token tx) (redirect_url tx)),
           [{| sp_order_id := "TOPUP-" +:+ uuid; sp_gross_amount := a |}]).
Proof.
  unfold topup.
  destruct (tb_userId b) as [u|]; [|by left].
  destruct (tb_amount b) as [a|]; [|by left].
  cbn [JS.falsy_str JS.falsy_int].
  case_bool_decide as Hu; [by left|].
  case_bool_decide as Ha; [by left|].
  case_bool_decide as Hmin; [by left|]. cbn [orb].
  destruct (snap _) as [tx|] eqn:Hsnap; [|by left].
  right. exists u, a, tx. split_and!; try done. lia.
Qed.

(** X5. When the gateway rejects the order, a top-up stores nothing: the
    in-memory /api/topup, the /api/topup of src/server.js and the
    /api/payment of part_000 leave their state as it was and do not answer
    200. *)
Theorem no_order_without_gateway
    (snap : Snap) (uuid : string) (s : State) (b : TopupBody)
    (db : Firestore.Db) (fb : Firestore.TopupBody)
    (auth : Firestore.bearer) (pb : Firestore.PaymentBody) :
  (∀ p, snap p = None) ->
  ((topup env snap uuid s b).1.1 = s ∧ (topup env snap uuid s b).1.2.(status) ≠ 200)
  ∧ ((Firestore.topup snap uuid db fb).1.1 = db
     ∧ (Firestore.topup snap uuid db fb).1.2.(status) ≠ 200)
  ∧ ((Firestore.payment snap uuid auth db pb).1.1 = db
     ∧ (Firestore.payment snap uuid auth db pb).1.2.(status) ≠ 200).
Proof.
  intros Hsnap. split; [|split].
  - destruct (topup_outcome snap uuid s b)
      as [[? ?]|(u & a & tx & _ & _ & _ & _ & _ & H & _)]; [done|].
    by rewrite Hsnap in H.
  - unfold Firestore.topup.
    destruct (Firestore.tb_uid fb); [|done]. destruct (Firestore.tb_amount fb); [|done].
    destruct (_ || _); [done|]. by rewrite Hsnap.
  - unfold Firestore.payment. destruct auth; [done|done|].
    destruct (Firestore.pb_amount pb); [|done].
    destruct (_ || _); [done|]. by rewrite Hsnap.
Qed.






End InMemoryAccounts.

Lemma no_order_without_gateway_witness :
  (InMemory.topup sample_env failing_snap "1" InMemory.init
     {| InMemory.tb_userId := Some "alice"; InMemory.tb_amount := Some 50000 |}).1.1
  = InMemory.init.
Proof.
  exact (proj1 (proj1 (no_order_without_gateway sample_env failing_snap "1" InMemory.init
                         {| InMemory.tb_userId := Some "alice";
                            InMemory.tb_amount := Some 50000 |}
                         sample_db
                         {| Firestore.tb_uid := Some "alice";
                            Firestore.tb_amount := Some 50000 |}
                         (Firestore.Verified "alice")
                         {| Firestore.pb_amount := Some 50000 |}
                         (fun _ => eq_refl)))).
Defined.

Section InMemoryConservation.
Import InMemory Accounting.
Variable sha512_hex : string -> string.
Variable env : Env.










End InMemoryConservation.


Section InMemoryWithdrawal.
Import InMemory.
Variable env : Env.


(** X9. A withdrawal that is not answered 200 is answered 400 and takes
    nothing: every balance, every daily total, every pending order and every
    settlement marker is as before. *)
Theorem withdraw_refused_effect (today : string) (s : State) (b : WithdrawBody) :
  (withdraw env today s b).2.(status) ≠ 200 ->
  let s' := (withdraw env today s b).1 in
  (withdraw env today s b).2.(status) = 400
  ∧ balances s' = balances s
  ∧ pendingOrders s' = pendingOrders s
  ∧ processedOrders s' = processedOrders s
  ∧ ∀ u day, todayTotal s' u day = todayTotal s u day.
Proof.
  intros Hst s'. subst s'.
  destruct (withdraw_spec env today s b) as [| | |u a|]; try done.
  split_and!; [done|..].
  - apply ensure_history_balances.
  - apply ensure_history_pending.
  - apply ensure_history_processed.
  - intros. apply ensure_history_total.
Qed.

End InMemoryWithdrawal.


Lemma withdraw_refused_effect_witness :
  InMemory.balances
    (InMemory.withdraw sample_env "2024-05-01" sample_settled
       {| InMemory.wb_userId := Some "alice"; InMemory.wb_amount := Some 70000 |}).1
  = InMemory.balances sample_settled.
Proof.
  assert (Hst : (InMemory.withdraw sample_env "2024-05-01" sample_settled
                   {| InMemory.wb_userId := Some "alice";
                      InMemory.wb_amount := Some 70000 |}).2.(status) ≠ 200)
    by (vm_compute; discriminate).
  exact (proj1 (proj2 (withdraw_refused_effect sample_env "2024-05-01" sample_settled
                         {| InMemory.wb_userId := Some "alice";
                            InMemory.wb_amount := Some 70000 |} Hst))).
Defined.

(** * Further properties of the Firestore handlers *)

Section FirestoreNotifications.
Import Firestore.
Variable sha512_hex : string -> string.
Variable key : string.

Lemma callback_other_status db n :
  transaction_status n ≠ "settlement" ->
  (midtrans_callback sha512_hex key db n).1 = db.
Proof.
  intros Hts. unfold midtrans_callback.
  case_bool_decide; [done|]. case_bool_decide; [done|].
  destruct (transactions db !! order_id n) as [t|]; [|done].
  case_bool_decide; [done|]. by rewrite bool_decide_false.
Qed.

(** X10. The callback credits on "settlement" only: a notification with
    any other transaction status, "capture" included, leaves the database
    as it was. *)
Theorem callback_only_settlement (db : Db) (n : Notification) :
  transaction_status n ≠ "settlement" ->
  (midtrans_callback sha512_hex key db n).1 = db.
Proof. apply callback_other_status. Qed.

Lemma callback_empty_id db n :
  signature_key n = expectedSignature sha512_hex key n -> order_id n = "" ->
  midtrans_callback sha512_hex key db n = (db, reply 500 (Text "Error")).
Proof.
  intros Hsig Hid. unfold midtrans_callback.
  rewrite bool_decide_false by congruence. by rewrite bool_decide_true.
Qed.

Lemma callback_no_user db n t :
  signature_key n = expectedSignature sha512_hex key n ->
  order_id n ≠ "" ->
  transaction_status n = "settlement" ->
  transactions db !! order_id n = Some t ->
  status t ≠ "success" ->
  uid t = "" ∨ users db !! uid t = None ->
  midtrans_callback sha512_hex key db n = (db, reply 500 (Text "Error")).
Proof.
  intros Hsig Hid Hts Ht Hst Hud. unfold midtrans_callback, credit_transaction.
  rewrite !bool_decide_false by congruence. rewrite Ht.
  rewrite bool_decide_false by done. rewrite bool_decide_true by done.
  case_bool_decide; [done|]. destruct Hud as [?|Hud]; [done|]. by rewrite Hud.
Qed.

(** X11. The callback is idempotent on the database: whatever the
    database and the notification, a second delivery changes nothing
    more. *)
Theorem callback_idempotent_always (db : Db) (n : Notification) :
  (midtrans_callback sha512_hex key (midtrans_callback sha512_hex key db n).1 n).1
  = (midtrans_callback sha512_hex key db n).1.
Proof.
  destruct (decide (signature_key n = expectedSignature sha512_hex key n)) as [Hsig|Hsig].
  2:{ rewrite (callback_bad_signature _ _ db n) by done. cbn [fst].
      by rewrite callback_bad_signature. }
  destruct (decide (order_id n = "")) as [Hid|Hid].
  { rewrite (callback_empty_id db n) by done. cbn [fst]. by rewrite callback_empty_id. }
  destruct (transactions db !! order_id n) as [t|] eqn:Ht.
  2:{ rewrite (callback_unknown_order _ _ db n) by done. cbn [fst].
      by rewrite callback_unknown_order. }
  destruct (decide (status t = "success")) as [Hst|Hst].
  { rewrite (callback_already_settled _ _ db n t) by done. cbn [fst].
    by rewrite (callback_already_settled _ _ db n t). }
  destruct (decide (transaction_status n = "settlement")) as [Hts|Hts].
  2:{ rewrite (callback_other_status db n) by done.
      by rewrite callback_other_status. }
  assert (Hlost : uid t = "" ∨ users db !! uid t = None ->
                  (midtrans_callback sha512_hex key
                     (midtrans_callback sha512_hex key db n).1 n).1
                  = (midtrans_callback sha512_hex key db n).1).
  { intros Hno. rewrite (callback_no_user db n t) by done. cbn [fst].
    by rewrite (callback_no_user db n t). }
  destruct (decide (uid t = "")) as [Hu|Hu]; [by apply Hlost; left|].
  destruct (users db !! uid t) as [ud|] eqn:Hud; [|by apply Hlost; right].
  rewrite (callback_settles _ _ db n t ud) by done. cbn [fst].
  rewrite (callback_already_settled _ _ _ n (set_status t "success")); [done|done|done| |done].
  cbn. by rewrite lookup_insert_eq.
Qed.

(** X12. A settlement for an order whose user has no document is lost: the
    callback answers 500 "Error", credits nothing and leaves the order
    unpaid, at every delivery. *)
Theorem callback_missing_user (db : Db) (n : Notification) (t : Transaction) :
  signature_key n = expectedSignature sha512_hex key n ->
  order_id n ≠ "" ->
  transaction_status n = "settlement" ->
  transactions db !! order_id n = Some t ->
  status t ≠ "success" ->
  users db !! uid t = None ->
  midtrans_callback sha512_hex key db n = (db, reply 500 (Text "Error")).
Proof. intros. apply (callback_no_user db n t); auto. Qed.

Lemma keeps_orders_refl db : keeps_orders db db.
Proof. split_and!; [|done|done]. intros id t Ht. by exists t. Qed.

Lemma keeps_orders_trans db1 db2 db3 :
  keeps_orders db1 db2 -> keeps_orders db2 db3 -> keeps_orders db1 db3.
Proof.
  intros (H1 & H1' & H1'') (H2 & H2' & H2''). split_and!.
  - intros id t Ht. destruct (H1 _ _ Ht) as (t' & Ht' & Hu & Ha).
    destruct (H2 _ _ Ht') as (t'' & Ht'' & Hu' & Ha').
    exists t''. split_and!; congruence.
  - intros id Hid. by apply H2', H1'.
  - congruence.
Qed.

Lemma keeps_orders_status db id t st us :
  transactions db !! id = Some t ->
  keeps_orders db {| transactions := <[id := set_status t st]> (transactions db);
                     users := us;
                     withdraw_requests := withdraw_requests db |}.
Proof.
  intros Ht. split_and!; [| |done].
  - intros id' t' Ht'. cbn. destruct (decide (id = id')) as [<-|Hne].
    + rewrite lookup_insert_eq. simplify_eq. by eexists.
    + rewrite lookup_insert_ne by done. by exists t'.
  - intros id' Hid'. cbn. rewrite lookup_insert_ne; [done|]. congruence.
Qed.

Lemma update_status_keeps db id st db' :
  update_status db id st = Some db' -> keeps_orders db db' ∧ users db' = users db.
Proof.
  unfold update_status. case_bool_decide; [done|].
  destruct (transactions db !! id) as [t|] eqn:Ht; [|done].
  intros [= <-]. split; [by apply keeps_orders_status|done].
Qed.

(** X13. No notification creates, deletes or re-assigns an order: after
    the webhook of src/server.js and after the callback of part_000 every
    stored order is still stored with the same user and amount, no order is
    new and the withdrawal requests are as before; the webhook moreover
    never touches a user document. *)
Theorem notifications_keep_orders (db : Db) (n : Notification) :
  keeps_orders db (webhook sha512_hex key db n).1
  ∧ users (webhook sha512_hex key db n).1 = users db
  ∧ keeps_orders db (midtrans_callback sha512_hex key db n).1.
Proof.
  split_and!.
  - unfold webhook. case_bool_decide; [apply keeps_orders_refl|].
    destruct (if _ || _ then _ else _) as [db1|] eqn:H1; [|apply keeps_orders_refl].
    assert (Hk1 : keeps_orders db db1).
    { destruct (_ || _); [by apply update_status_keeps in H1 as [? _]|].
      injection H1 as <-. apply keeps_orders_refl. }
    destruct (if bool_decide (transaction_status n = "expire") then _ else _)
      as [db2|] eqn:H2; [|done].
    cbn [fst]. eapply keeps_orders_trans; [done|].
    case_bool_decide; [by apply update_status_keeps in H2 as [? _]|].
    injection H2 as <-. apply keeps_orders_refl.
  - unfold webhook. case_bool_decide; [done|].
    destruct (if _ || _ then _ else _) as [db1|] eqn:H1; [|done].
    assert (Hu1 : users db1 = users db).
    { destruct (_ || _); [by apply update_status_keeps in H1 as [_ ?]|].
      by injection H1 as <-. }
    destruct (if bool_decide (transaction_status n = "expire") then _ else _)
      as [db2|] eqn:H2; [|done].
    cbn [fst]. rewrite <- Hu1.
    case_bool_decide; [by apply update_status_keeps in H2 as [_ ?]|].
    by injection H2 as <-.
  - unfold midtrans_callback.
    case_bool_decide; [apply keeps_orders_refl|].
    case_bool_decide; [apply keeps_orders_refl|].
    destruct (transactions db !! order_id n) as [t|] eqn:Ht; [|apply keeps_orders_refl].
    case_bool_decide; [apply keeps_orders_refl|].
    case_bool_decide; [|apply keeps_orders_refl].
    unfold credit_transaction. case_bool_decide; [apply keeps_orders_refl|].
    destruct (users db !! uid t); [|apply keeps_orders_refl].
    cbn [fst]. by apply keeps_orders_status.
Qed.

End FirestoreNotifications.

Lemma callback_only_settlement_witness :
  (Firestore.midtrans_callback sample_digest "server-key" sample_db sample_capture).1
  = sample_db.
Proof.
  assert (Hts : transaction_status sample_capture ≠ "settlement") by discriminate.
  exact (callback_only_settlement sample_digest "server-key" sample_db sample_capture Hts).
Defined.

Lemma callback_missing_user_witness :
  Firestore.midtrans_callback sample_digest "server-key" orphan_db sample_settlement
  = (orphan_db, reply 500 (Text "Error")).
Proof.
  assert (Hid : order_id sample_settlement ≠ "") by discriminate.
  assert (Hst : Firestore.status
                  {| Firestore.uid := "alice"; Firestore.amount := 50000;
                     Firestore.status := "pending" |} ≠ "success") by discriminate.
  exact (callback_missing_user sample_digest "server-key" orphan_db sample_settlement
           {| Firestore.uid := "alice"; Firestore.amount := 50000;
              Firestore.status := "pending" |}
           eq_refl Hid eq_refl eq_refl Hst eq_refl).
Defined.

Section FirestoreWebhook.
Import Firestore.
Variable sha512_hex : string -> string.
Variable key : string.

(** X14. The webhook of src/server.js does not tolerate an unknown order:
    a correctly signed settlement, capture or expire for an order that is
    not stored is answered 500 "Webhook error"; any other status is
    answered 200; the database is unchanged in both cases. *)
Theorem fs_webhook_unknown_order (db : Db) (n : Notification) :
  signature_key n = expectedSignature sha512_hex key n ->
  transactions db !! order_id n = None ->
  webhook sha512_hex key db n
  = (db, if bool_decide (transaction_status n = "settlement")
            || bool_decide (transaction_status n = "capture")
            || bool_decide (transaction_status n = "expire")
         then reply 500 (Message "Webhook error")
         else reply 200 (Message "Webhook processed")).
Proof.
  intros Hsig Hnone. unfold webhook, update_status.
  rewrite (bool_decide_false (_ ≠ _)) by congruence.
  destruct (bool_decide (transaction_status n = "settlement")
            || bool_decide (transaction_status n = "capture")); cbn [orb].
  - rewrite Hnone. by destruct (bool_decide (order_id n = "")).
  - destruct (bool_decide (transaction_status n = "expire")); [|done].
    rewrite Hnone. by destruct (bool_decide (order_id n = "")).
Qed.

(** X15. In the webhook of src/server.js the last notification decides the
    status of a stored order, whatever the status was: a correctly signed
    settlement or capture sets it to "success", also on an expired order,
    and an expire sets it to "expired", also on a paid one; both are
    answered 200 and change nothing else. *)
Theorem fs_webhook_overwrites_status (db : Db) (n : Notification) (t : Transaction) :
  signature_key n = expectedSignature sha512_hex key n ->
  order_id n ≠ "" ->
  transactions db !! order_id n = Some t ->
  (transaction_status n = "settlement" ∨ transaction_status n = "capture" ->
   webhook sha512_hex key db n
   = ({| transactions := <[order_id n := set_status t "success"]> (transactions db);
         users := users db;
         withdraw_requests := withdraw_requests db |},
      reply 200 (Message "Webhook processed")))
  ∧ (transaction_status n = "expire" ->
     webhook sha512_hex key db n
     = ({| transactions := <[order_id n := set_status t "expired"]> (transactions db);
           users := users db;
           withdraw_requests := withdraw_requests db |},
        reply 200 (Message "Webhook processed"))).
Proof.
  intros Hsig Hid Ht. split.
  - intros Hts. unfold webhook.
    rewrite (bool_decide_false (_ ≠ _)) by congruence.
    assert (Hfinal : bool_decide (transaction_status n = "settlement")
                     || bool_decide (transaction_status n = "capture") = true).
    { destruct Hts as [Hts|Hts]; rewrite Hts; reflexivity. }
    rewrite Hfinal.
    rewrite (bool_decide_false (transaction_status n = "expire"))
      by (destruct Hts as [Hts|Hts]; rewrite Hts; discriminate).
    unfold update_status.
    rewrite (bool_decide_false (order_id n = "")) by done. by rewrite Ht.
  - intros Hts. unfold webhook.
    rewrite (bool_decide_false (_ ≠ _)) by congruence. rewrite Hts.
    rewrite (bool_decide_false ("expire" = "settlement")) by discriminate.
    rewrite (bool_decide_false ("expire" = "capture")) by discriminate.
    rewrite (bool_decide_true ("expire" = "expire")) by done. cbn [orb].
    unfold update_status.
    rewrite (bool_decide_false (order_id n = "")) by done. by rewrite Ht.
Qed.

End FirestoreWebhook.

Lemma fs_webhook_unknown_order_witness :
  Firestore.webhook sample_digest "server-key" sample_db stray_settlement
  = (sample_db, reply 500 (Message "Webhook error")).
Proof.
  exact (fs_webhook_unknown_order sample_digest "server-key" sample_db stray_settlement
           eq_refl eq_refl).
Defined.

Lemma fs_webhook_overwrites_status_witness :
  Firestore.status
    <$> Firestore.transactions
          (Firestore.webhook sample_digest "server-key" sample_db sample_expire).1
        !! "TOPUP-1"
  = Some "expired".
Proof.
  assert (Hid : order_id sample_expire ≠ "") by discriminate.
  rewrite (proj2 (fs_webhook_overwrites_status sample_digest "server-key" sample_db
                    sample_expire
                    {| Firestore.uid := "alice"; Firestore.amount := 50000;
                       Firestore.status := "pending" |}
                    eq_refl Hid eq_refl) eq_refl).
  vm_compute. reflexivity.
Defined.

Section FirestoreWithdrawal.
Import Firestore.







(** X18. Without a verified token nothing happens: /api/payment and
    /api/withdraw answer 401, leave the database as it was and make no call
    to the gateway. *)
Theorem unauthenticated_rejected
    (snap : Snap) (uuid : string) (auth : bearer) (db : Db)
    (pb : PaymentBody) (wb : WithdrawBody) :
  (∀ u, auth ≠ Verified u) ->
  (∃ m, payment snap uuid auth db pb = (db, reply 401 (Message m), []))
  ∧ (∃ m, withdraw auth db wb = (db, reply 401 (Message m))).
Proof.
  intros Hauth. destruct auth as [| |u].
  - split; by eexists.
  - split; by eexists.
  - by destruct (Hauth u).
Qed.

End FirestoreWithdrawal.

Lemma unauthenticated_rejected_witness :
  (∃ m, Firestore.payment sample_snap "1" Firestore.InvalidToken sample_db
          {| Firestore.pb_amount := Some 50000 |}
        = (sample_db, reply 401 (Message m), []))
  ∧ (∃ m, Firestore.withdraw Firestore.InvalidToken sample_db
            {| Firestore.wb_amount := Some 50000; Firestore.wb_account_number := None |}
          = (sample_db, reply 401 (Message m))).
Proof.
  assert (Hauth : ∀ u, Firestore.InvalidToken ≠ Firestore.Verified u) by discriminate.
  exact (unauthenticated_rejected sample_snap "1" Firestore.InvalidToken sample_db
           {| Firestore.pb_amount := Some 50000 |}
           {| Firestore.wb_amount := Some 50000; Firestore.wb_account_number := None |}
           Hauth).
Defined.

(** * The withdrawal requests of src/server.js *)

Section ServerJsWithdrawal.
Import ServerJs.

(** X19. The /api/withdraw of src/server.js records what it is asked and
    checks no balance: a request with a user, an amount other than zero and
    a bank account, whatever the amount, is stored as pending under the id
    "WD-" + uuid that the response returns, and every other document stays
    as it was; a request that lacks one of the three is answered 400 and
    stores nothing. *)
Theorem withdraw_request_recorded
    (uuid : string) (withdrawals : gmap string Withdrawal) (b : WithdrawBody) :
  (JS.falsy_str (wb_uid b) || JS.falsy_int (wb_amount b) || JS.falsy_str (wb_bankAccount b)
   = true
   ∧ withdraw uuid withdrawals b = (withdrawals, Refused 400 "Invalid request"))
  ∨ ∃ u a acct,
      wb_uid b = Some u ∧ wb_amount b = Some a ∧ wb_bankAccount b = Some acct
      ∧ u ≠ "" ∧ a ≠ 0 ∧ acct ≠ ""
      ∧ (withdraw uuid withdrawals b).2
        = Submitted "Withdraw request submitted" ("WD-" +:+ uuid)
      ∧ (withdraw uuid withdrawals b).1 !! ("WD-" +:+ uuid)
        = Some {| wd_uid := u; wd_amount := a; wd_bankAccount := acct;
                  wd_status := "pending" |}
      ∧ (∀ id, id ≠ "WD-" +:+ uuid ->
           (withdraw uuid withdrawals b).1 !! id = withdrawals !! id)
      ∧ (withdrawals !! ("WD-" +:+ uuid) = None ->
         size (withdraw uuid withdrawals b).1 = S (size withdrawals)).
Proof.
  unfold withdraw.
  destruct (wb_uid b) as [u|]; [|by left].
  destruct (wb_amount b) as [a|]; [|left; by rewrite orb_true_r].
  destruct (wb_bankAccount b) as [acct|]; [|left; by rewrite orb_true_r].
  destruct (JS.falsy_str (Some u) || JS.falsy_int (Some a) || JS.falsy_str (Some acct))
    eqn:Hf; [by left|].
  apply orb_false_iff in Hf as [Hf Hacct]. apply orb_false_iff in Hf as [Hu Ha].
  cbn in Hu, Ha, Hacct. apply bool_decide_eq_false in Hu, Ha, Hacct.
  right. exists u, a, acct. cbn [fst snd]. split_and!; try done.
  - by rewrite lookup_insert_eq.
  - intros id Hid. by rewrite lookup_insert_ne.
  - intros Hfresh. by apply map_size_insert_None.
Qed.

End ServerJsWithdrawal.

(** * The checks at start-up *)

Section StartupChecks.
Import Startup.

Lemma first_missing_None keys env :
  first_missing keys env = None
  ↔ ∀ key, key ∈ keys -> ∃ v, env !! key = Some v ∧ v ≠ "".
Proof.
  induction keys as [|k keys IH]; cbn [first_missing].
  - split; [|done]. intros _ key Hin. by apply elem_of_nil in Hin.
  - destruct (JS.falsy_str (env !! k)) eqn:Hk.
    + split; [done|]. intros Hall. destruct (Hall k) as (v & Hv & Hne); [by left|].
      rewrite Hv in Hk. cbn in Hk. by apply bool_decide_eq_true in Hk.
    + rewrite IH. split.
      * intros Hall key Hin. apply elem_of_cons in Hin as [->|Hin]; [|by apply Hall].
        destruct (env !! k) as [v|]; [|done]. exists v. split; [done|].
        cbn in Hk. by apply bool_decide_eq_false in Hk.
      * intros Hall key Hin. apply Hall. by right.
Qed.

Lemma first_missing_Some keys env key :
  first_missing keys env = Some key ->
  key ∈ keys ∧ JS.falsy_str (env !! key) = true.
Proof.
  induction keys as [|k keys IH]; cbn [first_missing]; [done|].
  destruct (JS.falsy_str (env !! k)) eqn:Hk.
  - intros [= <-]. split; [by left|done].
  - intros H. destruct (IH H) as [Hin Hf]. split; [by right|done].
Qed.

(** X20. The start-up check of src/server.js lets the process go on
    exactly when each of its five variables is set and not empty; otherwise
    it throws, and the message names a required variable that is missing or
    empty. An environment that passes it also passes the check of part_000
    and the check of the in-memory server. *)
Theorem startup_checks (env : gmap string string) :
  (check_server env = None
   ↔ ∀ key, key ∈ requiredEnv_server -> ∃ v, env !! key = Some v ∧ v ≠ "")
  ∧ (∀ msg, check_server env = Some msg ->
       ∃ key, msg = "Missing required env variable: " +:+ key
              ∧ key ∈ requiredEnv_server ∧ JS.falsy_str (env !! key) = true)
  ∧ (check_server env = None ->
     check_callback env = None ∧ check_in_memory env = true).
Proof.
  unfold check_server, check_callback. split_and!.
  - rewrite fmap_None. apply first_missing_None.
  - intros msg Hmsg. apply fmap_Some in Hmsg as (key & Hkey & ->).
    exists key. split; [done|]. by apply first_missing_Some.
  - rewrite !fmap_None, !first_missing_None. intros Hall. split.
    + intros key Hin. apply Hall. unfold requiredEnv_callback, requiredEnv_server in *.
      rewrite !elem_of_cons, elem_of_nil in Hin. rewrite !elem_of_cons. tauto.
    + unfold check_in_memory.
      destruct (Hall "MIDTRANS_SERVER_KEY") as (v1 & -> & Hv1);
        [unfold requiredEnv_server; rewrite !elem_of_cons; by left|].
      destruct (Hall "MIDTRANS_CLIENT_KEY") as (v2 & -> & Hv2);
        [unfold requiredEnv_server; rewrite !elem_of_cons; right; by left|].
      cbn. by rewrite !bool_decide_false.
Qed.

End StartupChecks.

Lemma startup_checks_witness :
  Startup.check_callback sample_process_env = None
  ∧ Startup.check_in_memory sample_process_env = true.
Proof.
  assert (H : Startup.check_server sample_process_env = None) by (vm_compute; reflexivity).
  exact (proj2 (proj2 (startup_checks sample_process_env)) H).
Defined.

Lemma withdraw_request_recorded_witness :
  (ServerJs.withdraw "1" ∅ sample_withdraw_body).1 !! "WD-1"
  = Some {| ServerJs.wd_uid := "alice"; ServerJs.wd_amount := -5;
            ServerJs.wd_bankAccount := "1234567890"; ServerJs.wd_status := "pending" |}.
Proof.
  destruct (withdraw_request_recorded "1" ∅ sample_withdraw_body)
    as [[Hf _]|(u & a & acct & Hu & Ha & Hacct & _ & _ & _ & _ & Hget & _)].
  - vm_compute in Hf. discriminate Hf.
  - injection Hu as <-. injection Ha as <-. injection Hacct as <-. exact Hget.
Defined.


Section FirestoreRoundTrip.
Import Firestore.
Variable sha512_hex : string -> string.
Variable key : string.


End FirestoreRoundTrip.

